(** * Blueberry Browser: recorder, script generator and replayer

    A shallow embedding of the three classes that make up the workflow
    automation core of the browser,

    - [ActionRecorder]       (src/main/ActionRecorder.ts),
    - [PlaywrightGenerator]  (src/main/PlaywrightGenerator.ts),
    - [ActionReplayer]       (src/main/ActionReplayer.ts),

    together with the JavaScript string and date primitives they rely on.

    Conventions of the embedding.
    - A JavaScript string is a [string]: a sequence of 8-bit characters.
      White space is the ASCII white space (TAB, LF, VT, FF, CR, SPACE);
      the non-ASCII white space of ECMAScript is not represented.
    - An optional property ([description?: string]) is an [option];
      [undefined] is [None].
    - A method that may throw returns a [result].
    - Mutable object fields become fields of an explicit state record
      that every method takes and returns. *)

From Stdlib Require Import ZArith Lia List Bool Ascii String DecimalString.
From stdpp Require Import gmap strings.

Local Open Scope Z_scope.

(** ** Results of methods that may throw *)

Inductive JsError : Type :=
| Error (message : string)
| TypeError (message : string)
| RangeError (message : string).

(** [error instanceof Error ? error.message : String(error)] *)
Definition errorMessage (e : JsError) : string :=
  match e with
  | Error m | TypeError m | RangeError m => m
  end.

Inductive result (A : Type) : Type :=
| Ok (a : A)
| Throw (e : JsError).
Arguments Ok {A} a.
Arguments Throw {A} e.

Definition bind {A B} (r : result A) (k : A -> result B) : result B :=
  match r with
  | Ok a => k a
  | Throw e => Throw e
  end.

Notation "'let*' x ':=' r 'in' k" := (bind r (fun x => k))
  (at level 10, x pattern, r at level 100, k at level 200).

(** ** JavaScript string primitives *)

Module JsString.

(** [s.startsWith(p)] *)
Fixpoint startsWith (p s : string) : bool :=
  match p with
  | EmptyString => true
  | String a p' =>
      match s with
      | EmptyString => false
      | String b s' => Ascii.eqb a b && startsWith p' s'
      end
  end.

(** [s.includes(p)] *)
Fixpoint includes (p s : string) : bool :=
  startsWith p s ||
  match s with
  | EmptyString => false
  | String _ s' => includes p s'
  end.

(** [s.split(sep)] for a non-empty separator: the pieces between the
    leftmost non-overlapping occurrences of [sep].  [skip] counts the
    characters of a separator occurrence that are still to be passed. *)
Fixpoint split_go (sep : string) (skip : nat) (s : string) : list string :=
  match s with
  | EmptyString => [EmptyString]
  | String c s' =>
      match skip with
      | S k => split_go sep k s'
      | O =>
          if startsWith sep s
          then EmptyString :: split_go sep (Nat.pred (String.length sep)) s'
          else match split_go sep O s' with
               | p :: ps => String c p :: ps
               | [] => [String c EmptyString]
               end
      end
  end.

Definition split (sep s : string) : list string := split_go sep O s.

(** the double quote and the line feed, as one-character strings *)
Definition doubleQuote : string := String "034" EmptyString.

Definition newline : string := String "010" EmptyString.

(** [lines.join(sep)] *)
Definition join (sep : string) (l : list string) : string :=
  String.concat sep l.

Definition is_space (c : ascii) : bool :=
  match c with
  | "009" | "010" | "011" | "012" | "013" | " " => true
  | _ => false
  end%char.

Fixpoint trimStart (s : string) : string :=
  match s with
  | EmptyString => EmptyString
  | String c s' => if is_space c then trimStart s' else s
  end.

Definition is_empty (s : string) : bool :=
  match s with EmptyString => true | _ => false end.

Fixpoint trimEnd (s : string) : string :=
  match s with
  | EmptyString => EmptyString
  | String c s' =>
      let t := trimEnd s' in
      if is_space c && is_empty t then EmptyString else String c t
  end.

(** [s.trim()] *)
Definition trim (s : string) : string := trimEnd (trimStart s).

(** [s.replace(/c/g, rep)] for a one-character pattern [c]. *)
Fixpoint replaceAll (c : ascii) (rep : string) (s : string) : string :=
  match s with
  | EmptyString => EmptyString
  | String a s' =>
      if Ascii.eqb a c then rep +:+ replaceAll c rep s'
      else String a (replaceAll c rep s')
  end.

Fixpoint dropChars (n : nat) (s : string) : string :=
  match n, s with
  | S k, String _ s' => dropChars k s'
  | _, _ => s
  end.

(** [s.replace(pat, rep)] for a non-empty literal [pat]: the leftmost
    occurrence only. *)
Fixpoint replaceFirst (pat rep : string) (s : string) : string :=
  match s with
  | EmptyString => EmptyString
  | String c s' =>
      if startsWith pat s then rep +:+ dropChars (String.length pat) s
      else String c (replaceFirst pat rep s')
  end.

(** [(s.match(/p/g) || []).length] for a literal pattern [p]: the number
    of leftmost non-overlapping occurrences. *)
Fixpoint count_go (p : string) (skip : nat) (s : string) : nat :=
  match s with
  | EmptyString => O
  | String _ s' =>
      match skip with
      | S k => count_go p k s'
      | O =>
          if startsWith p s
          then S (count_go p (Nat.pred (String.length p)) s')
          else count_go p O s'
      end
  end.

Definition countMatches (p s : string) : nat := count_go p O s.

(** *** The regular expressions of the loader and of the replayer

    All of them have the shape [lit '([^']+)' ...]: a literal, then a
    non-empty run of characters other than the single quote, then a
    closing literal.  A run [[^']+] is greedy and is followed by a
    quote in every pattern, so backtracking into the run never helps:
    at a given start position the match is decided by the longest
    run. *)

Definition quote : ascii := "'"%char.

(** the longest prefix without a quote, and what follows it *)
Fixpoint spanNotQuote (s : string) : string * string :=
  match s with
  | EmptyString => (EmptyString, EmptyString)
  | String c s' =>
      if Ascii.eqb c quote then (EmptyString, s)
      else let '(run, rest) := spanNotQuote s' in (String c run, rest)
  end.

(** [\s*] *)
Fixpoint skipSpaces (s : string) : string :=
  match s with
  | EmptyString => EmptyString
  | String c s' => if is_space c then skipSpaces s' else s
  end.

Fixpoint stripPrefix (p s : string) : option string :=
  match p with
  | EmptyString => Some s
  | String a p' =>
      match s with
      | EmptyString => None
      | String b s' => if Ascii.eqb a b then stripPrefix p' s' else None
      end
  end.

(** the first position at which [m] succeeds, scanning left to right *)
Fixpoint search {A} (m : string -> option A) (s : string) : option A :=
  match m s with
  | Some r => Some r
  | None =>
      match s with
      | EmptyString => None
      | String _ s' => search m s'
      end
  end.

(** [lit\('([^']+)'close] anchored at the start of [s]; the capture *)
Definition quotedAt (lit close : string) (s : string) : option string :=
  match stripPrefix (lit +:+ "('") s with
  | None => None
  | Some s1 =>
      let '(run, rest) := spanNotQuote s1 in
      if is_empty run then None
      else match stripPrefix ("'" +:+ close) rest with
           | Some _ => Some run
           | None => None
           end
  end.

(** [/goto\('([^']+)'\)/], [/click\('([^']+)'\)/], [/press\('([^']+)'\)/] *)
Definition match_goto : string -> option string := search (quotedAt "goto" ")").
Definition match_click : string -> option string := search (quotedAt "click" ")").
Definition match_press : string -> option string := search (quotedAt "press" ")").
(** [/test\('([^']+)'/] *)
Definition match_test : string -> option string := search (quotedAt "test" "").

(** The fill pattern: [fill], an opening parenthesis, a quoted non-empty
    run, a comma, optional white space, a quoted possibly empty run and
    a closing parenthesis; anchored at the start of [s]. *)
Definition fillAt (s : string) : option (string * string) :=
  match stripPrefix "fill('" s with
  | None => None
  | Some s1 =>
      let '(sel, rest) := spanNotQuote s1 in
      if is_empty sel then None
      else match stripPrefix "'," rest with
           | None => None
           | Some s2 =>
               match stripPrefix "'" (skipSpaces s2) with
               | None => None
               | Some s3 =>
                   let '(val, rest') := spanNotQuote s3 in
                   match stripPrefix "')" rest' with
                   | Some _ => Some (sel, val)
                   | None => None
                   end
               end
           end
  end.

Definition match_fill : string -> option (string * string) := search fillAt.

End JsString.

(** ** JavaScript numbers

    The numbers that occur in the three classes are time stamps, counters
    and the result of [parseInt]: integers, or [NaN].  An integer is
    represented exactly and rendered in decimal; the rounding to 53 bits
    and the exponent notation of numbers from 1e21 on are not
    represented. *)

Inductive JsNumber : Type :=
| NaN
| Num (z : Z).

Module JsNumber.
Import JsString.

(** the template-literal rendering of a number *)
Definition toString (n : JsNumber) : string :=
  match n with
  | NaN => "NaN"
  | Num z => NilZero.string_of_int (Z.to_int z)
  end.

Definition digitVal (radix : Z) (c : ascii) : option Z :=
  let n := Z.of_N (N_of_ascii c) in
  let v := if (48 <=? n) && (n <=? 57) then Some (n - 48)
           else if (97 <=? n) && (n <=? 122) then Some (n - 87)
           else if (65 <=? n) && (n <=? 90) then Some (n - 55)
           else None in
  match v with
  | Some d => if d <? radix then Some d else None
  | None => None
  end.

(** the value of the longest prefix of digits, [None] when it is empty *)
Fixpoint readDigits (radix : Z) (acc : option Z) (s : string) : option Z :=
  match s with
  | EmptyString => acc
  | String c s' =>
      match digitVal radix c with
      | Some d => readDigits radix (Some (default 0 acc * radix + d)) s'
      | None => acc
      end
  end.

(** [parseInt(s)] with no radix argument: leading white space, an
    optional sign, an optional [0x] prefix, then digits. *)
Definition parseInt (s : string) : JsNumber :=
  let s1 := trimStart s in
  let '(neg, s2) :=
    match s1 with
    | String "-" r => (true, r)
    | String "+" r => (false, r)
    | _ => (false, s1)
    end in
  let '(radix, s3) :=
    match s2 with
    | String "0" (String "x" r) => (16, r)
    | String "0" (String "X" r) => (16, r)
    | _ => (10, s2)
    end in
  match readDigits radix None s3 with
  | None => NaN
  | Some n => Num (if neg then - n else n)
  end.
End JsNumber.

(** ** JavaScript dates: [toISOString] and the parsing of its output *)

Module JsDate.

Definition msPerDay : Z := 86400000.
(** the largest magnitude of a time value *)
Definition maxTime : Z := 8640000000000000.

(** Day number (days since 1970-01-01) to proleptic Gregorian
    year, month (1..12) and day of month (1..31). *)
Definition dateOfEra (doe : Z) : Z * Z * Z :=
  let yoe := (doe - doe / 1460 + doe / 36524 - doe / 146096) / 365 in
  let doy := doe - (365 * yoe + yoe / 4 - yoe / 100) in
  let mp := (5 * doy + 2) / 153 in
  let d := doy - (153 * mp + 2) / 5 + 1 in
  let m := if mp <? 10 then mp + 3 else mp - 9 in
  (yoe, m, d).

Definition civilFromDays (z : Z) : Z * Z * Z :=
  let z' := z + 719468 in
  let era := z' / 146097 in
  let '(yoe, m, d) := dateOfEra (z' mod 146097) in
  (yoe + era * 400 + (if m <=? 2 then 1 else 0), m, d).

Definition dayOfEra (yoe m d : Z) : Z :=
  let mp := if 2 <? m then m - 3 else m + 9 in
  let doy := (153 * mp + 2) / 5 + d - 1 in
  yoe * 365 + yoe / 4 - yoe / 100 + doy.

Definition daysFromCivil (y m d : Z) : Z :=
  let y' := y - (if m <=? 2 then 1 else 0) in
  let era := y' / 400 in
  era * 146097 + dayOfEra (y' mod 400) m d - 719468.

Definition digitChar (n : Z) : ascii := ascii_of_N (48 + Z.to_N n).

(** [w] decimal digits of [n], most significant first, followed by [k] *)
Fixpoint digits (w : nat) (n : Z) (k : string) : string :=
  match w with
  | O => k
  | S w' => digits w' (n / 10) (String (digitChar (n mod 10)) k)
  end.

(** the text after the year: month, day and time of day *)
Definition afterYearText (m d ms : Z) : string :=
  String "-" (digits 2 m (String "-" (digits 2 d (String "T"
    (digits 2 (ms / 3600000) (String ":"
    (digits 2 (ms / 60000 mod 60) (String ":"
    (digits 2 (ms / 1000 mod 60) (String "."
    (digits 3 (ms mod 1000) "Z"))))))))))).

(** [new Date(t).toISOString()]; a time value out of range is a
    [RangeError].  Years outside 0..9999 use the expanded form with a
    sign and six digits. *)
Definition toISOString (t : Z) : result string :=
  if maxTime <? Z.abs t then Throw (RangeError "Invalid time value")
  else
    let '(y, m, d) := civilFromDays (t / msPerDay) in
    let rest := afterYearText m d (t mod msPerDay) in
    Ok (if (0 <=? y) && (y <=? 9999) then digits 4 y rest
        else String (if y <? 0 then "-" else "+") (digits 6 (Z.abs y) rest)).

Definition digitVal (c : ascii) : option Z :=
  let n := Z.of_N (N_of_ascii c) in
  if (48 <=? n) && (n <=? 57) then Some (n - 48) else None.

(** exactly [w] decimal digits *)
Fixpoint readDigits (w : nat) (acc : Z) (s : string) : option (Z * string) :=
  match w with
  | O => Some (acc, s)
  | S w' =>
      match s with
      | EmptyString => None
      | String c s' =>
          match digitVal c with
          | Some d => readDigits w' (acc * 10 + d) s'
          | None => None
          end
      end
  end.

Definition expect (c : ascii) (s : string) : option string :=
  match s with
  | String a s' => if Ascii.eqb a c then Some s' else None
  | EmptyString => None
  end.

Definition readYear (s : string) : option (Z * string) :=
  match s with
  | EmptyString => None
  | String c s' =>
      if Ascii.eqb c "+" then readDigits 6 0 s'
      else if Ascii.eqb c "-" then
        match readDigits 6 0 s' with
        | Some (y, r) => if y =? 0 then None else Some (- y, r)
        | None => None
        end
      else readDigits 4 0 s
  end.

(** the fields after the year, and the time value of the whole *)
Definition parseAfterYear (y : Z) (s : string) : option Z :=
  s ← expect "-" s; '(mo, s) ← readDigits 2 0 s;
  s ← expect "-" s; '(d, s) ← readDigits 2 0 s;
  s ← expect "T" s; '(h, s) ← readDigits 2 0 s;
  s ← expect ":" s; '(mi, s) ← readDigits 2 0 s;
  s ← expect ":" s; '(se, s) ← readDigits 2 0 s;
  s ← expect "." s; '(ms, s) ← readDigits 3 0 s;
  s ← expect "Z" s;
  if JsString.is_empty s
     && (1 <=? mo) && (mo <=? 12) && (1 <=? d) && (d <=? 31)
     && (h <=? 23) && (mi <=? 59) && (se <=? 59)
  then
    let t := daysFromCivil y mo d * msPerDay
             + h * 3600000 + mi * 60000 + se * 1000 + ms in
    if maxTime <? Z.abs t then None else Some t
  else None.

(** [new Date(s).getTime()] for the complete UTC form of the ECMAScript
    date-time string format, [YYYY-MM-DDTHH:mm:ss.sssZ] with its
    expanded-year variant: exactly the texts [toISOString] produces.
    Any other text is read as an invalid date here ([NaN]); engines
    accept further, implementation-defined forms, which are outside
    this embedding. *)
Definition parse (s : string) : JsNumber :=
  match '(y, s) ← readYear s; parseAfterYear y s with
  | Some t => Num t
  | None => NaN
  end.

End JsDate.

(** ** The data model (src/main/types/RecorderTypes.ts) *)

Inductive ActionType : Type :=
| click | input | select | navigate | scroll | wait | keypress | manual_step.

Record ElementSelector : Type := {
  sel_css : option string;
  sel_xpath : option string;
  sel_text : option string;
  sel_id : option string;
  sel_name : option string;
}.

Record RecordedAction : Type := {
  a_id : string;
  a_type : ActionType;
  a_timestamp : Z;
  a_url : string;
  a_selector : option ElementSelector;
  a_value : option string;
  a_description : option string;
  a_screenshot : option string;
  a_isContentField : option bool;
  a_contentPlaceholder : option string;
}.

Record RecordingMetadata : Type := {
  targetSite : option string;
  duration : option Z;
  manualSteps : option nat;
}.

Record Recording : Type := {
  r_id : string;
  r_name : string;
  r_description : option string;
  r_createdAt : JsNumber;
  r_updatedAt : JsNumber;
  r_actions : list RecordedAction;
  r_metadata : option RecordingMetadata;
}.

(** Truthiness of an optional string: [undefined] and the empty string
    are falsy. *)
Definition truthy (o : option string) : bool :=
  match o with
  | Some s => negb (JsString.is_empty s)
  | None => false
  end.

(** [o || d] on an optional string *)
Definition orElse (o : option string) (d : string) : string :=
  match o with
  | Some s => if JsString.is_empty s then d else s
  | None => d
  end.

(** ** JSON payloads

    [JSON.parse] is a builtin of the host.  The generator uses it in two
    [try] blocks only, whose observable outcome is a line of text; the
    outcome of each block is a parameter of the embedding.

    - [keyOf v] is the outcome of
      [keyInfo = JSON.parse(v); key = keyInfo.key || "Enter"]:
      [KeyThrows] when the block throws, [KeyEnter] when [key] is the
      string [Enter], and [KeyOther k] otherwise, [k] being the
      rendering of [key] in a template literal.
    - [scrollOf v] is the outcome of [scrollData = JSON.parse(v)]
      followed by the renderings of [scrollData.x || 0] and
      [scrollData.y || 0]; [None] when the block throws. *)

Inductive KeyOutcome : Type :=
| KeyThrows
| KeyEnter
| KeyOther (k : string).

Class JsonModel : Type := {
  keyOf : string -> KeyOutcome;
  scrollOf : string -> option (string * string);
}.

(** ** PlaywrightGenerator (src/main/PlaywrightGenerator.ts) *)

Record PlaywrightScriptMetadata : Type := {
  m_id : string;
  m_name : string;
  m_description : option string;
  m_createdAt : Z;
  m_targetSite : option string;
}.

Module PlaywrightGenerator.
Import JsString.

Definition escapeSelector (selector : string) : string :=
  replaceAll "'" "\'" selector.

Definition escapeValue (value : string) : string :=
  replaceAll "013" "\r" (replaceAll "010" "\n" (replaceAll "'" "\'" value)).

Definition getPreferredSelector (selector : option ElementSelector) : string :=
  match selector with
  | None => "body"
  | Some sel =>
      if truthy (sel_id sel) then "#" +:+ orElse (sel_id sel) ""
      else if truthy (sel_css sel) then orElse (sel_css sel) ""
      else if truthy (sel_name sel)
           then "[name=" +:+ doubleQuote +:+ orElse (sel_name sel) ""
                  +:+ doubleQuote +:+ "]"
      else if truthy (sel_xpath sel) then orElse (sel_xpath sel) ""
      else "body"
  end.

Definition getSelectorString (selector : option ElementSelector) : string :=
  getPreferredSelector selector.

(** the start of a trailing comment: a space, two slashes, a space and
    a double quote *)
Definition commentOpen : string :=
  String " " (String "/" (String "/" (String " " doubleQuote))).

(** the trailing comment with the captured text of the element, empty
    when the selector has no text *)
Definition textComment (selector : option ElementSelector) : string :=
  match selector with
  | Some sel =>
      if truthy (sel_text sel)
      then commentOpen +:+ orElse (sel_text sel) "" +:+ doubleQuote
      else ""
  | None => ""
  end.

Definition generateClickCommand (action : RecordedAction) : string :=
  "  await page.click('"
    +:+ escapeSelector (getPreferredSelector (a_selector action))
    +:+ "');" +:+ textComment (a_selector action).

Definition generateInputCommand
    (selectorStr value : string) (selectorObj : option ElementSelector) : string :=
  "  await page.fill('" +:+ escapeSelector selectorStr +:+ "', '"
    +:+ escapeValue value +:+ "');" +:+ textComment selectorObj.

Definition generateSelectCommand (action : RecordedAction) : string :=
  "  await page.selectOption('"
    +:+ escapeSelector (getPreferredSelector (a_selector action))
    +:+ "', '" +:+ escapeValue (orElse (a_value action) "") +:+ "');".

Definition generateManualStepComment (action : RecordedAction) : string :=
  "  // MANUAL STEP: "
    +:+ orElse (a_description action) "Complete this step manually".

(** the [wait] case of the switch *)
Definition generateWaitCommand (action : RecordedAction) : string :=
  let waitMs := JsNumber.parseInt (orElse (a_value action) "1000") in
  "  await page.waitForTimeout(" +:+ JsNumber.toString waitMs +:+ ");".

Section WithJson.
Context {json : JsonModel}.

Definition generateKeypressCommand (action : RecordedAction) : string :=
  match keyOf (orElse (a_value action) "{}") with
  | KeyEnter =>
      "  await page.keyboard.press('Enter'); // May trigger form submission"
  | KeyOther key => "  await page.keyboard.press('" +:+ key +:+ "');"
  | KeyThrows => "  await page.keyboard.press('Enter');"
  end.

Definition generateScrollCommand (action : RecordedAction) : string :=
  match scrollOf (orElse (a_value action) "{}") with
  | Some (x, y) =>
      "  await page.evaluate(() => window.scrollTo(" +:+ x +:+ ", "
        +:+ y +:+ "));"
  | None => "  await page.evaluate(() => window.scrollTo(0, 0));"
  end.

(** The local variables of the loop of [generate]. *)
Record LoopState : Type := {
  lastUrl : option string;
  consolidatedInputs : gmap string string;
  lastInputSelector : option string;
}.

(** the guard [action.type === "input" && getSelectorString(..) === sel] *)
Definition isInputOn (sel : string) (a : RecordedAction) : bool :=
  match a_type a with
  | input => String.eqb (getSelectorString (a_selector a)) sel
  | _ => false
  end.

(** [if (lastInputSelector && consolidatedInputs.has(lastInputSelector))]
    of the [click] and [keypress] cases: the lines pushed and the new
    values of the map and of [lastInputSelector]. *)
Definition flushPending (st : LoopState) (action : RecordedAction)
  : list string * gmap string string * option string :=
  match lastInputSelector st with
  | Some sel =>
      if negb (is_empty sel) then
        match consolidatedInputs st !! sel with
        | Some value =>
            ([generateInputCommand sel value (a_selector action)], ∅, None)
        | None => ([], consolidatedInputs st, lastInputSelector st)
        end
      else ([], consolidatedInputs st, lastInputSelector st)
  | None => ([], consolidatedInputs st, lastInputSelector st)
  end.

(** [value.replace] on [undefined] *)
Definition undefinedReplace : JsError :=
  TypeError "Cannot read properties of undefined (reading 'replace')".

(** The [input] case.  [consolidatedInputs.get(..)!] of an absent key
    is [undefined], on which [escapeValue] throws a [TypeError]. *)
Definition inputCase (st : LoopState) (action : RecordedAction)
    (nextAction : option RecordedAction)
  : result (list string * gmap string string * option string) :=
  let inputSelector := getSelectorString (a_selector action) in
  let* (l1, map1) :=
    match lastInputSelector st with
    | Some prev =>
        if negb (String.eqb inputSelector prev) && negb (is_empty prev) then
          match consolidatedInputs st !! prev with
          | Some value =>
              Ok ([generateInputCommand prev value (a_selector action)],
                  (∅ : gmap string string))
          | None => Throw undefinedReplace
          end
        else Ok ([], consolidatedInputs st)
    | None => Ok ([], consolidatedInputs st)
    end in
  let map2 := <[inputSelector := orElse (a_value action) ""]> map1 in
  let flushNow :=
    match nextAction with
    | None => true
    | Some n => negb (isInputOn inputSelector n)
    end in
  if flushNow then
    match map2 !! inputSelector with
    | Some value =>
        Ok (l1 ++ [generateInputCommand inputSelector value (a_selector action)],
            ∅, None)
    | None => Throw undefinedReplace
    end
  else Ok (l1, map2, Some inputSelector).

(** One iteration of the loop: the lines it pushes and the state it
    leaves. *)
Definition processAction (st : LoopState) (action : RecordedAction)
    (nextAction : option RecordedAction) : result (list string * LoopState) :=
  let urlChanged := negb (bool_decide (Some (a_url action) = lastUrl st)) in
  let l0 :=
    if urlChanged then ["  // Page navigated to: " +:+ a_url action] else [] in
  let url' := if urlChanged then Some (a_url action) else lastUrl st in
  let keep l :=
    Ok (l0 ++ l,
        {| lastUrl := url';
           consolidatedInputs := consolidatedInputs st;
           lastInputSelector := lastInputSelector st |}) in
  match a_type action with
  | click =>
      let '(l, map', last') := flushPending st action in
      Ok (l0 ++ l ++ [generateClickCommand action],
          {| lastUrl := url'; consolidatedInputs := map';
             lastInputSelector := last' |})
  | input =>
      let* (l, map', last') := inputCase st action nextAction in
      Ok (l0 ++ l,
          {| lastUrl := url'; consolidatedInputs := map';
             lastInputSelector := last' |})
  | keypress =>
      let '(l, map', last') := flushPending st action in
      Ok (l0 ++ l ++ [generateKeypressCommand action],
          {| lastUrl := url'; consolidatedInputs := map';
             lastInputSelector := last' |})
  | select => keep [generateSelectCommand action]
  | scroll => keep [generateScrollCommand action]
  | manual_step => keep [generateManualStepComment action]
  | wait => keep [generateWaitCommand action]
  | navigate => keep []
  end.

(** The loop over a segment of the action list; [following] is the
    action that comes after the segment ([None] at the end of the
    list), which the last iteration sees as [nextAction]. *)
Fixpoint processActions (st : LoopState) (actions : list RecordedAction)
    (following : option RecordedAction) : result (list string * LoopState) :=
  match actions with
  | [] => Ok ([], st)
  | action :: rest =>
      let nextAction :=
        match rest with
        | n :: _ => Some n
        | [] => following
        end in
      let* (l1, st1) := processAction st action nextAction in
      let* (l2, st2) := processActions st1 rest following in
      Ok (l1 ++ l2, st2)
  end.

(** the lines pushed before the loop *)
Definition headerLines (metadata : PlaywrightScriptMetadata) : result (list string) :=
  let* created := JsDate.toISOString (m_createdAt metadata) in
  Ok (["import { test, expect } from '@playwright/test';";
       "";
       "// Recording ID: " +:+ m_id metadata;
       "// Created: " +:+ created]
      ++ (if truthy (m_description metadata)
          then ["// Description: " +:+ orElse (m_description metadata) ""]
          else [])
      ++ ["";
          "test('" +:+ m_name metadata +:+ "', async ({ page }) => {"]
      ++ (if truthy (m_targetSite metadata)
          then ["  // Navigate to starting URL";
                "  await page.goto('" +:+ orElse (m_targetSite metadata) "" +:+ "');";
                ""]
          else [])).

Definition initialLoopState (metadata : PlaywrightScriptMetadata) : LoopState :=
  {| lastUrl := m_targetSite metadata;
     consolidatedInputs := ∅;
     lastInputSelector := None |}.

(** the array [lines] at the end of [generate] *)
Definition generateLines (metadata : PlaywrightScriptMetadata)
    (actions : list RecordedAction) : result (list string) :=
  let* header := headerLines metadata in
  let* (body, _) := processActions (initialLoopState metadata) actions None in
  Ok (header ++ body ++ ["});"]).

Definition generate (metadata : PlaywrightScriptMetadata)
    (actions : list RecordedAction) : result string :=
  let* lines := generateLines metadata actions in
  Ok (join newline lines).

End WithJson.
End PlaywrightGenerator.

(** ** The host: everything outside the three classes

    The page shown in a tab, the script store on disk and the session
    manager are external collaborators.  Their state is an abstract
    [World]; each call takes a world and returns the next one together
    with its outcome (a rejected promise or a thrown exception is a
    [Throw]). *)

(** the scripts handed to [tab.runJs] *)
Inductive PageScript : Type :=
| RecorderScript                              (* injectRecorderScript *)
| CleanupScript                               (* cleanupRecorderScript *)
| ClickScript (selector : string)             (* executeClick *)
| FillScript (selector value : string)        (* executeFill *)
| KeyPressScript (key : string).              (* executeKeyPress *)

Class Host : Type := {
  World : Type;
  runJs : World -> PageScript -> World * result unit;
  loadURL : World -> string -> World * result unit;
  (** [fs.readFileSync] of the script of a recording id *)
  readScript : World -> string -> result string;
  (** [new URL(s).hostname] *)
  hostnameOf : string -> result string;
  (** [sessionManager.saveSession(domain)] *)
  saveSession : World -> string -> World * result unit;
}.

Record Tab : Type := {
  tab_id : string;
  tab_url : string;
}.

(** ** ActionRecorder (src/main/ActionRecorder.ts) *)

Record RecorderState : Type := {
  isRecording : bool;
  isPaused : bool;
  currentRecording : option Recording;
  recordings : list Recording;
}.

Module ActionRecorder.
Import JsString.

Record t : Type := {
  state : RecorderState;
  currentTab : option Tab;
}.

(** the object built by the constructor, before [loadRecordings] *)
Definition new : t :=
  {| state := {| isRecording := false; isPaused := false;
                 currentRecording := None; recordings := [] |};
     currentTab := None |}.

(** The local variables of the loop of [parsePlaywrightScript]. *)
Record Parsed : Type := {
  p_id : string;
  p_name : string;
  p_description : option string;
  p_createdAt : JsNumber;
  p_targetSite : option string;
}.

(** [line.split(marker)[1].trim()]; [undefined.trim()] throws. *)
Definition afterMarker (marker line : string) : result string :=
  match split marker line with
  | _ :: piece :: _ => Ok (trim piece)
  | _ => Throw (TypeError "Cannot read properties of undefined (reading 'trim')")
  end.

(** the body of the loop over the lines *)
Definition parseLine (st : Parsed) (line : string) : result Parsed :=
  if includes "// Recording ID:" line then
    let* v := afterMarker "// Recording ID:" line in
    Ok {| p_id := v; p_name := p_name st; p_description := p_description st;
          p_createdAt := p_createdAt st; p_targetSite := p_targetSite st |}
  else if includes "// Created:" line then
    let* dateStr := afterMarker "// Created:" line in
    Ok {| p_id := p_id st; p_name := p_name st; p_description := p_description st;
          p_createdAt := JsDate.parse dateStr; p_targetSite := p_targetSite st |}
  else if includes "// Description:" line then
    let* v := afterMarker "// Description:" line in
    Ok {| p_id := p_id st; p_name := p_name st; p_description := Some v;
          p_createdAt := p_createdAt st; p_targetSite := p_targetSite st |}
  else if includes "test('" line then
    match match_test line with
    | Some n =>
        Ok {| p_id := p_id st; p_name := n; p_description := p_description st;
              p_createdAt := p_createdAt st; p_targetSite := p_targetSite st |}
    | None => Ok st
    end
  else if includes "await page.goto('" line then
    match match_goto line with
    | Some u =>
        Ok {| p_id := p_id st; p_name := p_name st; p_description := p_description st;
              p_createdAt := p_createdAt st; p_targetSite := Some u |}
    | None => Ok st
    end
  else Ok st.

Fixpoint parseLines (st : Parsed) (lines : list string) : result Parsed :=
  match lines with
  | [] => Ok st
  | line :: rest =>
      let* st' := parseLine st line in
      parseLines st' rest
  end.

Definition parsePlaywrightScript (filename content : string) : result Recording :=
  let lines := split newline content in
  let id := replaceFirst ".spec.ts" "" filename in
  let* st := parseLines {| p_id := id; p_name := id; p_description := None;
                           p_createdAt := Num 0; p_targetSite := None |} lines in
  Ok {| r_id := p_id st;
        r_name := p_name st;
        r_description := p_description st;
        r_createdAt := p_createdAt st;
        r_updatedAt := p_createdAt st;
        r_actions := [];
        r_metadata :=
          Some {| targetSite := p_targetSite st;
                  duration := None;
                  manualSteps := Some (countMatches "// MANUAL STEP:" content) |} |}.

Section WithHost.
Context {host : Host}.

Definition injectRecorderScript (w : World) (tab : Tab) : World * result unit :=
  runJs w RecorderScript.

(** [uuid] is the value of [uuidv4()], [now1] and [now2] the two
    readings of [Date.now()]. *)
Definition startRecording (this : t) (w : World) (tab : Tab)
    (name : string) (description : option string)
    (uuid : string) (now1 now2 : Z) : t * World * result Recording :=
  if isRecording (state this) then
    (this, w, Throw (Error "Already recording"))
  else
    let recording :=
      {| r_id := uuid; r_name := name; r_description := description;
         r_createdAt := Num now1; r_updatedAt := Num now2;
         r_actions := [];
         r_metadata := Some {| targetSite := Some (tab_url tab);
                               duration := None;
                               manualSteps := Some O |} |} in
    let started :=
      {| state := {| isRecording := true; isPaused := false;
                     currentRecording := Some recording;
                     recordings := recordings (state this) |};
         currentTab := Some tab |} in
    match injectRecorderScript w tab with
    | (w', Ok _) => (started, w', Ok recording)
    | (w', Throw e) =>
        ({| state := {| isRecording := false;
                        isPaused := isPaused (state started);
                        currentRecording := None;
                        recordings := recordings (state started) |};
            currentTab := None |},
         w', Throw e)
    end.
End WithHost.

Definition pauseRecording (this : t) : result t :=
  if negb (isRecording (state this)) then Throw (Error "Not recording")
  else Ok {| state := {| isRecording := isRecording (state this);
                         isPaused := true;
                         currentRecording := currentRecording (state this);
                         recordings := recordings (state this) |};
             currentTab := currentTab this |}.

Definition resumeRecording (this : t) : result t :=
  if negb (isRecording (state this)) then Throw (Error "Not recording")
  else Ok {| state := {| isRecording := isRecording (state this);
                         isPaused := false;
                         currentRecording := currentRecording (state this);
                         recordings := recordings (state this) |};
             currentTab := currentTab this |}.

End ActionRecorder.

(** ** ActionReplayer (src/main/ActionReplayer.ts) *)

Module ActionReplayer.
Import JsString.

Inductive ReplayState : Type :=
| idle | running | paused | manual_step | completed | error.

Record ReplayStatus : Type := {
  rs_state : ReplayState;
  rs_currentActionIndex : Z;
  rs_totalActions : nat;
  rs_error : option string;
  rs_message : option string;
}.

(** A call of the status-change observer: the callback it went to, the
    status it received and, for reference, the value of the field
    [recording] at the time of the call. *)
Record Notification : Type := {
  n_observer : nat;
  n_status : ReplayStatus;
  n_recording : option Recording;
}.

(** The fields of the class.  [onStatusChange] identifies the callback;
    [notified] is the history of its calls, most recent last. *)
Record t : Type := {
  recording : option Recording;
  currentActionIndex : Z;
  state : ReplayState;
  onStatusChange : option nat;
  notified : list Notification;
}.

Definition new : t :=
  {| recording := None; currentActionIndex := 0; state := idle;
     onStatusChange := None; notified := [] |}.

Definition is_running (s : ReplayState) : bool :=
  match s with running => true | _ => false end.

(** [this.recording?.metadata?.manualSteps || 0] *)
Definition manualStepsOrZero (r : option Recording) : nat :=
  match r with
  | Some rec =>
      match r_metadata rec with
      | Some md => default O (manualSteps md)
      | None => O
      end
  | None => O
  end.

Definition emitStatus (this : t) (message err : option string) : t :=
  match onStatusChange this with
  | Some observer =>
      {| recording := recording this;
         currentActionIndex := currentActionIndex this;
         state := state this;
         onStatusChange := onStatusChange this;
         notified :=
           notified this ++
           [{| n_observer := observer;
               n_status :=
                 {| rs_state := state this;
                    rs_currentActionIndex := currentActionIndex this;
                    rs_totalActions := manualStepsOrZero (recording this);
                    rs_error := err;
                    rs_message := message |};
               n_recording := recording this |}] |}
  | None => this
  end.

Definition setState (this : t) (s : ReplayState) : t :=
  {| recording := recording this;
     currentActionIndex := currentActionIndex this;
     state := s;
     onStatusChange := onStatusChange this;
     notified := notified this |}.

Definition pause (this : t) : t :=
  if is_running (state this)
  then emitStatus (setState this paused) (Some "Replay paused") None
  else this.

Definition resume (this : t) : t :=
  match state this with
  | paused | manual_step =>
      emitStatus (setState this running) (Some "Replay resumed") None
  | _ => this
  end.

Definition stop (this : t) : t :=
  emitStatus
    {| recording := None; currentActionIndex := 0; state := idle;
       onStatusChange := onStatusChange this; notified := notified this |}
    (Some "Replay stopped") None.

Definition getStatus (this : t) : ReplayStatus :=
  {| rs_state := state this;
     rs_currentActionIndex := currentActionIndex this;
     rs_totalActions := O;
     rs_error := None;
     rs_message := None |}.

(** The calls the execution loop makes on the page. *)
Inductive PageCall : Type :=
| Goto (url : string)                    (* tab.loadURL(url) *)
| ExecuteClick (selector : string)
| ExecuteFill (selector value : string)
| ExecuteKeyPress (key : string).

(** The chain of [if (trimmed.includes(..)) { match = ..; if (match) .. }]:
    the call a line leads to, if any.  The first [includes] that holds
    decides which pattern is tried. *)
Definition commandOf (trimmed : string) : option PageCall :=
  if includes "await page.goto(" trimmed then
    option_map Goto (match_goto trimmed)
  else if includes "await page.click(" trimmed then
    option_map ExecuteClick (match_click trimmed)
  else if includes "await page.fill(" trimmed then
    option_map (fun '(sel, v) => ExecuteFill sel v) (match_fill trimmed)
  else if includes "await page.keyboard.press(" trimmed then
    option_map ExecuteKeyPress (match_press trimmed)
  else None.

(** A line of the script: comments, imports and blank lines are
    skipped, the others go through the chain above. *)
Definition recognize (line : string) : option PageCall :=
  let trimmed := trim line in
  if startsWith "//" trimmed || startsWith "import" trimmed || is_empty trimmed
  then None
  else commandOf trimmed.

(** [this.sleep(..)] after a call that succeeded *)
Definition settleTime (c : PageCall) : Z :=
  match c with
  | Goto _ => 2000
  | _ => 500
  end.

(** What the loop did, in order. *)
Inductive Effect : Type :=
| Called (c : PageCall)          (* the call was made *)
| Slept (ms : Z)
| LoggedError (e : JsError).     (* the [catch] of the loop body *)

Definition callsOf (trace : list Effect) : list PageCall :=
  omap (fun e => match e with Called c => Some c | _ => None end) trace.

(** The start of [startReplay]: the guard and the four assignments. *)
Definition begin (this : t) (options_recording : Recording)
    (observer : option nat) : result t :=
  if is_running (state this) then Throw (Error "Already replaying")
  else Ok {| recording := Some options_recording;
             currentActionIndex := 0;
             state := running;
             onStatusChange := observer;
             notified := notified this |}.

(** the end of the [try] block *)
Definition complete (this : t) : t :=
  emitStatus (setState this completed) (Some "Replay completed successfully") None.

(** the [catch] block *)
Definition failWith (this : t) (e : JsError) : t :=
  emitStatus (setState this error)
    (Some ("Replay failed: " +:+ errorMessage e)) None.

Section WithHost.
Context {host : Host}.

Definition perform (w : World) (c : PageCall) : World * result unit :=
  match c with
  | Goto url => loadURL w url
  | ExecuteClick sel => runJs w (ClickScript sel)
  | ExecuteFill sel v => runJs w (FillScript sel v)
  | ExecuteKeyPress key => runJs w (KeyPressScript key)
  end.

(** The body of the loop over the lines: the call of the line, when
    it has one, inside a [try]; a failure is logged and the loop goes
    on. *)
Definition executeLine (w : World) (line : string) : World * list Effect :=
  match recognize line with
  | Some c =>
      match perform w c with
      | (w', Ok _) => (w', [Called c; Slept (settleTime c)])
      | (w', Throw e) => (w', [Called c; LoggedError e])
      end
  | None => (w, [])
  end.

Fixpoint executeLines (w : World) (lines : list string) : World * list Effect :=
  match lines with
  | [] => (w, [])
  | line :: rest =>
      let '(w1, t1) := executeLine w line in
      let '(w2, t2) := executeLines w1 rest in
      (w2, t1 ++ t2)
  end.

Definition executePlaywrightInCurrentTab (w : World) (recordingId : string)
  : World * list Effect * result unit :=
  match readScript w recordingId with
  | Throw e => (w, [], Throw e)
  | Ok scriptContent =>
      let '(w', trace) := executeLines w (split newline scriptContent) in
      (w', trace, Ok ())
  end.

(** The [try] block after the execution of the script: the session is
    saved when the recording has a target site. *)
Definition afterExecution (this : t) (w : World) : t * World * result unit :=
  match recording this with
  | None =>
      let e := TypeError "Cannot read properties of null (reading 'metadata')" in
      (failWith this e, w, Throw e)
  | Some rec =>
      let site :=
        match r_metadata rec with
        | Some md => targetSite md
        | None => None
        end in
      if truthy site then
        match hostnameOf (orElse site "") with
        | Throw e => (failWith this e, w, Throw e)
        | Ok domain =>
            match saveSession w domain with
            | (w', Throw e) => (failWith this e, w', Throw e)
            | (w', Ok _) => (complete this, w', Ok ())
            end
        end
      else (complete this, w, Ok ())
  end.

Definition startReplay (this : t) (w : World) (tab : Tab)
    (options_recording : Recording) (observer : option nat)
  : t * World * list Effect * result unit :=
  match begin this options_recording observer with
  | Throw e => (this, w, [], Throw e)
  | Ok this1 =>
      match executePlaywrightInCurrentTab w (r_id options_recording) with
      | (w1, trace, Throw e) => (failWith this1 e, w1, trace, Throw e)
      | (w1, trace, Ok _) =>
          let '(this2, w2, r) := afterExecution this1 w1 in
          (this2, w2, trace, r)
      end
  end.
End WithHost.

(** The steps at which the fields of the class change.  The body of
    [startReplay] is asynchronous: between its start and its end the
    other methods may run, so its start and its two ways of ending are
    steps of their own. *)
Inductive Step : Type :=
| StartBegins (options_recording : Recording) (observer : option nat)
| StartCompletes
| StartFails (e : JsError)
| Pause
| Resume
| Stop.

Definition step (this : t) (s : Step) : t :=
  match s with
  | StartBegins rec observer =>
      match begin this rec observer with
      | Ok this' => this'
      | Throw _ => this
      end
  | StartCompletes => complete this
  | StartFails e => failWith this e
  | Pause => pause this
  | Resume => resume this
  | Stop => stop this
  end.

Definition run (this : t) (steps : list Step) : t := fold_left step steps this.

(** what holds of every call of the observer *)
Definition reportsNoProgress (n : Notification) : Prop :=
  rs_currentActionIndex (n_status n) = 0
  /\ rs_totalActions (n_status n) = manualStepsOrZero (n_recording n).

Definition progressInvariant (this : t) : Prop :=
  currentActionIndex this = 0 /\ Forall reportsNoProgress (notified this).

End ActionReplayer.

Import JsString.

(** ** Two concrete hosts, used to run the classes on examples *)

(** a page on which every call succeeds and whose stored script is
    [content], whatever the recording *)
Definition obligingHost (content : string) : Host :=
  {| World := unit;
     runJs := fun w _ => (w, Ok ());
     loadURL := fun w _ => (w, Ok ());
     readScript := fun _ _ => Ok content;
     hostnameOf := fun _ => Ok "example.com";
     saveSession := fun w _ => (w, Ok ()) |}.

(** a page that rejects every script handed to [runJs] *)
Definition rejectingHost (content : string) : Host :=
  {| World := unit;
     runJs := fun w _ => (w, Throw (Error "Script failed to execute"));
     loadURL := fun w _ => (w, Ok ());
     readScript := fun _ _ => Ok content;
     hostnameOf := fun _ => Ok "example.com";
     saveSession := fun w _ => (w, Ok ()) |}.

Definition exampleTab : Tab :=
  {| tab_id := "tab-1"; tab_url := "https://example.com/" |}.

Definition exampleRecording (steps : nat) : Recording :=
  {| r_id := "4d6870eb"; r_name := "Recording-1"; r_description := None;
     r_createdAt := Num 1763340907065; r_updatedAt := Num 1763340907065;
     r_actions := [];
     r_metadata := Some {| targetSite := None; duration := None;
                           manualSteps := Some steps |} |}.

(** a recorder with a recording in progress *)
Definition recorderInProgress (nowPaused : bool) : ActionRecorder.t :=
  {| ActionRecorder.state :=
       {| isRecording := true; isPaused := nowPaused;
          currentRecording := Some (exampleRecording 0); recordings := [] |};
     ActionRecorder.currentTab := Some exampleTab |}.


(** a script of three commands *)
Definition threeCommands : string :=
  "  await page.click('#go');
  await page.fill('#q', 'ab');
  await page.keyboard.press('Enter'); // May trigger form submission".

(** ** Reading the generated lines *)



Definition headAction (l : list RecordedAction) (following : option RecordedAction)
  : option RecordedAction :=
  match l with
  | a :: _ => Some a
  | [] => following
  end.

(** [a] is an input action whose selector resolves to [sel] *)
Definition inputOn (sel : string) (a : option RecordedAction) : bool :=
  match a with
  | Some x => PlaywrightGenerator.isInputOn sel x
  | None => false
  end.

(** a JSON model for examples without keypress and scroll payloads *)
Definition noJson : JsonModel :=
  {| keyOf := fun _ => KeyThrows; scrollOf := fun _ => None |}.

Definition selectorById (i : string) : option ElementSelector :=
  Some {| sel_css := None; sel_xpath := None; sel_text := None;
          sel_id := Some i; sel_name := None |}.

(** an action captured on the page of [exampleTab] *)
Definition exampleAction (type : ActionType) (selector : option ElementSelector)
    (value description : option string) : RecordedAction :=
  {| a_id := "a"; a_type := type; a_timestamp := 1763340907065;
     a_url := "https://example.com/"; a_selector := selector;
     a_value := value; a_description := description; a_screenshot := None;
     a_isContentField := None; a_contentPlaceholder := None |}.

Definition exampleMetadata : PlaywrightScriptMetadata :=
  {| m_id := "4d6870eb"; m_name := "Recording-1"; m_description := None;
     m_createdAt := 1763340907065; m_targetSite := Some "https://example.com/" |}.

(** ** Notions used to state the consolidation rule *)

Section LoopNotions.
Import PlaywrightGenerator.

(** the pending selector of the loop, when there is one, is the selector
    of the input action about to be processed *)
Definition pendingMatches (st : LoopState) (cur : option RecordedAction) : Prop :=
  match lastInputSelector st with
  | None => True
  | Some sel => inputOn sel cur = true
  end.

(** the comment that records a change of URL; [prev] is the URL of the
    previous action, or the target site before the first one *)
Definition navigationComment (prev : option string) (a : RecordedAction)
  : list string :=
  if negb (bool_decide (Some (a_url a) = prev))
  then ["  // Page navigated to: " +:+ a_url a] else [].

(** the same, for the URL the loop remembers *)
Definition navigationLines (st : LoopState) (a : RecordedAction) : list string :=
  navigationComment (lastUrl st) a.

End LoopNotions.

(** ** Occurrences of a pattern in a concatenation *)

(** the non-empty suffixes of a string, longest first *)
Fixpoint suffixes (s : string) : list string :=
  match s with
  | EmptyString => []
  | String _ s' => s :: suffixes s'
  end.

(** [p] starts inside [a] and ends inside [b]: some non-empty suffix of
    [a] is a proper prefix of [p] and [b] starts with the rest of [p] *)
Definition straddles (p a b : string) : bool :=
  existsb (fun a2 =>
             match stripPrefix a2 p with
             | Some rest => negb (is_empty rest) && startsWith rest b
             | None => false
             end) (suffixes a).

(** some non-empty suffix of [a] is a proper prefix of [p] *)
Definition overlapLeft (p a : string) : bool :=
  existsb (fun a2 =>
             match stripPrefix a2 p with
             | Some rest => negb (is_empty rest)
             | None => false
             end) (suffixes a).

(** a proper non-empty suffix of [p] and [lit] agree as far as both go *)
Definition overlapRight (p lit : string) : bool :=
  match p with
  | EmptyString => false
  | String _ p' =>
      existsb (fun rest => startsWith rest lit || startsWith lit rest) (suffixes p')
  end.

Definition allChars (f : ascii -> bool) (s : string) : bool :=
  forallb f (list_ascii_of_string s).

(** a pattern that survives the escaping of quotes and line breaks: it is
    not empty, has no backslash, and does not start with one of the
    characters that follow an inserted backslash *)
Definition escapable (p : string) : bool :=
  match p with
  | EmptyString => false
  | String c _ =>
      negb (Ascii.eqb c "'") && negb (Ascii.eqb c "n") && negb (Ascii.eqb c "r")
      && allChars (fun x => negb (Ascii.eqb x "\")) p
  end.

(** [p] neither occurs in the literal [lit] nor can run over either of
    its ends *)
Definition literalFree (p lit : string) : bool :=
  negb (includes p lit) && negb (overlapLeft p lit) && negb (overlapRight p lit).

(** the characters of the text of a time value *)
Definition isoChar (c : ascii) : bool :=
  match c with
  | "0" | "1" | "2" | "3" | "4" | "5" | "6" | "7" | "8" | "9"
  | "-" | "+" | ":" | "." | "T" | "Z" => true
  | _ => false
  end%char.

(** ** The texts an action contributes to its command *)

(** the characters of the rendering of a number *)
Definition numberChar (c : ascii) : bool :=
  match c with
  | "0" | "1" | "2" | "3" | "4" | "5" | "6" | "7" | "8" | "9"
  | "-" | "N" | "a" => true
  | _ => false
  end%char.

(** the captured text of the element, empty when there is none *)
Definition selectorText (selector : option ElementSelector) : string :=
  match selector with
  | Some sel => orElse (sel_text sel) ""
  | None => ""
  end.

(** The texts that come from the action and are written into the
    command of the action: selector string, element text, value, key,
    coordinates, description, according to the type of the action. *)
Definition embeddedTexts {json : JsonModel} (a : RecordedAction) : list string :=
  match a_type a with
  | click =>
      [PlaywrightGenerator.getPreferredSelector (a_selector a);
       selectorText (a_selector a)]
  | input =>
      [PlaywrightGenerator.getPreferredSelector (a_selector a);
       orElse (a_value a) ""; selectorText (a_selector a)]
  | keypress =>
      match keyOf (orElse (a_value a) "{}") with
      | KeyOther key => [key]
      | _ => []
      end
  | select =>
      [PlaywrightGenerator.getPreferredSelector (a_selector a);
       orElse (a_value a) ""]
  | scroll =>
      match scrollOf (orElse (a_value a) "{}") with
      | Some (x, y) => [x; y]
      | None => []
      end
  | manual_step => [orElse (a_description a) "Complete this step manually"]
  | wait | navigate => []
  end.

(** none of the patterns [ps] occurs in [s] *)
Definition freeOf (ps : list string) (s : string) : bool :=
  forallb (fun p => negb (includes p s)) ps.

(** the four texts the replayer looks for in a line *)
Definition commandPrefixes : list string :=
  ["await page.goto("; "await page.click("; "await page.fill(";
   "await page.keyboard.press("].

Definition selectLiterals : list string :=
  ["  await page.selectOption('"; "', '"; "');"].

Definition scrollLiterals : list string :=
  ["  await page.evaluate(() => window.scrollTo("; ", "; "));";
   "  await page.evaluate(() => window.scrollTo(0, 0));"].

Definition waitLiterals : list string :=
  ["  await page.waitForTimeout("; ");"].

(** a pattern the templates [lits] leave no room for: it survives
    escaping, has a character no number has, and fits in or across none
    of the literals *)
Definition foreignTo (lits : list string) (p : string) : bool :=
  escapable p && negb (allChars numberChar p) && forallb (literalFree p) lits.

(** the choice, in a select element whose id is the text of a click
    command, of an option whose value is a closing parenthesis *)
Definition misleadingSelect : RecordedAction :=
  exampleAction select (selectorById "await page.click(") (Some ")") None.

(** ** The body of the script, as the consolidation rule describes it *)

Section ConsolidatedBody.
Context {json : JsonModel}.
Import PlaywrightGenerator.

(** The command of one action.  An input action yields its fill
    command unless the next action is an input on the same selector, in
    which case it yields nothing: the later value replaces it. *)
Definition commandLines (a : RecordedAction) (next : option RecordedAction)
  : list string :=
  match a_type a with
  | click => [generateClickCommand a]
  | input =>
      if inputOn (getSelectorString (a_selector a)) next then []
      else [generateInputCommand (getSelectorString (a_selector a))
              (orElse (a_value a) "") (a_selector a)]
  | keypress => [generateKeypressCommand a]
  | select => [generateSelectCommand a]
  | scroll => [generateScrollCommand a]
  | manual_step => [generateManualStepComment a]
  | wait => [generateWaitCommand a]
  | navigate => []
  end.

Fixpoint consolidatedBody (prev : option string) (actions : list RecordedAction)
    (following : option RecordedAction) : list string :=
  match actions with
  | [] => []
  | a :: rest =>
      navigationComment prev a
        ++ commandLines a (headAction rest following)
        ++ consolidatedBody (Some (a_url a)) rest following
  end.
End ConsolidatedBody.

(** the literal pieces of the lines of the script *)
Definition navigationLiterals : list string := ["  // Page navigated to: "].

Definition clickLiterals : list string :=
  ["  await page.click('"; "');"; PlaywrightGenerator.commentOpen; doubleQuote].

Definition fillLiterals : list string :=
  ["  await page.fill('"; "', '"; "');"; PlaywrightGenerator.commentOpen; doubleQuote].

Definition keypressLiterals : list string :=
  ["  await page.keyboard.press('Enter'); // May trigger form submission";
   "  await page.keyboard.press('"; "');";
   "  await page.keyboard.press('Enter');"].


(** the literals of every line of the body but the manual-step comment *)
Definition bodyLiterals : list string :=
  navigationLiterals ++ clickLiterals ++ fillLiterals ++ keypressLiterals
    ++ selectLiterals ++ scrollLiterals ++ waitLiterals.

(** the literals of the header and of the closing line, but for the
    three comment lines of the header *)
Definition frameLiterals : list string :=
  ["import { test, expect } from '@playwright/test';";
   "test('"; "', async ({ page }) => {";
   "  // Navigate to starting URL"; "  await page.goto('"; "');"; "});"].

(** [p] occurs in none of the texts *)
Definition absentFrom (p : string) (texts : list string) : bool :=
  forallb (fun s => negb (includes p s)) texts.

(** the marker of a manual step in the script *)
Definition manualStepMarker : string := "// MANUAL STEP:".



Definition is_manual_step (a : RecordedAction) : bool :=
  match a_type a with
  | manual_step => true
  | _ => false
  end.

(** the number of manual steps of an action list *)
Definition countManualSteps (actions : list RecordedAction) : nat :=
  length (filter (fun a => is_manual_step a = true) actions).

(** the texts of the metadata that are written into the header, the id
    apart: the name, the description and the target site when they are
    not empty *)
Definition frameTexts (metadata : PlaywrightScriptMetadata) : list string :=
  [m_name metadata; orElse (m_description metadata) "";
   orElse (m_targetSite metadata) ""].

(** the texts an action list writes into the body: URLs and the texts
    of the commands *)
Definition bodyTexts {json : JsonModel} (actions : list RecordedAction)
  : list string :=
  concat (map (fun a => a_url a :: embeddedTexts a) actions).

(** the total number of occurrences of [p] in the lines *)
Definition countInLines (p : string) (lines : list string) : nat :=
  list_sum (map (countMatches p) lines).

(** the lines of the header after the comment lines *)
Definition frameLines (metadata : PlaywrightScriptMetadata) : list string :=
  ["";
   "test('" +:+ m_name metadata +:+ "', async ({ page }) => {"]
  ++ (if truthy (m_targetSite metadata)
      then ["  // Navigate to starting URL";
            "  await page.goto('" +:+ orElse (m_targetSite metadata) "" +:+ "');";
            ""]
      else []).

Definition descriptionLines (metadata : PlaywrightScriptMetadata) : list string :=
  if truthy (m_description metadata)
  then ["// Description: " +:+ orElse (m_description metadata) ""]
  else [].

(** a manual step whose description quotes the marker *)
Definition quotingManualStep : RecordedAction :=
  exampleAction manual_step None None
    (Some "as in // MANUAL STEP: scan the badge").

(** ** Texts that the loader reads back unchanged *)






(** * Properties *)

(** ** Strings *)

Section StringFacts.

Lemma append_String c s t : String c s +:+ t = String c (s +:+ t).
Proof. reflexivity. Qed.

Lemma append_empty_l t : "" +:+ t = t.
Proof. reflexivity. Qed.

Lemma append_empty_r s : s +:+ "" = s.
Proof. induction s as [|c s IH]; [reflexivity|]. rewrite append_String, IH. reflexivity. Qed.

Lemma startsWith_empty s : startsWith "" s = true.
Proof. destruct s; reflexivity. Qed.

Lemma startsWith_append p r : startsWith p (p +:+ r) = true.
Proof.
  induction p as [|c p IH]; [apply startsWith_empty|].
  rewrite append_String. cbn [startsWith]. rewrite Ascii.eqb_refl, IH. reflexivity.
Qed.

Lemma startsWith_append_l p a b : startsWith p a = true -> startsWith p (a +:+ b) = true.
Proof.
  revert a. induction p as [|c p IH]; intros a H; [apply startsWith_empty|].
  destruct a as [|d a]; [discriminate|]. rewrite append_String.
  cbn [startsWith] in *. apply andb_true_iff in H as [H1 H2].
  rewrite H1, (IH _ H2). reflexivity.
Qed.

Lemma stripPrefix_Some a p rest : stripPrefix a p = Some rest -> p = a +:+ rest.
Proof.
  revert p. induction a as [|c a IH]; intros p H.
  - cbn in H. inversion H. reflexivity.
  - destruct p as [|d p]; [discriminate|]. cbn [stripPrefix] in H.
    destruct (Ascii.eqb c d) eqn:E; [|discriminate].
    apply Ascii.eqb_eq in E. subst d. rewrite append_String, <- (IH _ H). reflexivity.
Qed.

Lemma stripPrefix_append a rest : stripPrefix a (a +:+ rest) = Some rest.
Proof.
  induction a as [|c a IH]; [reflexivity|].
  rewrite append_String. cbn [stripPrefix]. rewrite Ascii.eqb_refl. exact IH.
Qed.

(** a prefix of [a +:+ b] either is a prefix of [a] or runs over into [b] *)
Lemma startsWith_append_elim p a b :
  startsWith p (a +:+ b) = true ->
  startsWith p a = true
  \/ exists rest, stripPrefix a p = Some rest /\ startsWith rest b = true.
Proof.
  revert a. induction p as [|c p IH]; intros a H; [left; apply startsWith_empty|].
  destruct a as [|d a].
  - right. exists (String c p). split; [reflexivity|exact H].
  - rewrite append_String in H. cbn [startsWith] in H.
    apply andb_true_iff in H as [H1 H2].
    destruct (IH _ H2) as [Hl|[rest [Hs Hr]]].
    + left. cbn [startsWith]. rewrite H1, Hl. reflexivity.
    + right. exists rest. cbn [stripPrefix].
      apply Ascii.eqb_eq in H1. subst d.
      rewrite Ascii.eqb_refl. split; assumption.
Qed.

Lemma includes_cons p c s :
  includes p (String c s) = startsWith p (String c s) || includes p s.
Proof. reflexivity. Qed.

Lemma includes_startsWith p s : startsWith p s = true -> includes p s = true.
Proof. intros H. destruct s; cbn [includes]; rewrite H; reflexivity. Qed.

Lemma includes_append_r p a b : includes p b = true -> includes p (a +:+ b) = true.
Proof.
  intros H. induction a as [|c a IH]; [exact H|].
  rewrite append_String, includes_cons, IH. apply orb_true_r.
Qed.

Lemma includes_append_l p a b : includes p a = true -> includes p (a +:+ b) = true.
Proof.
  induction a as [|c a IH]; intros H.
  - cbn in H. rewrite orb_false_r in H. destruct p; [|discriminate].
    apply includes_startsWith, startsWith_empty.
  - rewrite append_String, includes_cons. rewrite includes_cons in H.
    apply orb_true_iff in H as [H|H].
    + rewrite <- append_String, (startsWith_append_l _ _ _ H). reflexivity.
    + rewrite (IH H). apply orb_true_r.
Qed.

(** an occurrence of [p] in [a +:+ b] lies in [a], lies in [b], or
    straddles the two *)
Lemma includes_append_elim p a b :
  includes p (a +:+ b) = true ->
  includes p a = true \/ includes p b = true \/ straddles p a b = true.
Proof.
  induction a as [|c a IH]; intros H; [right; left; exact H|].
  rewrite append_String, includes_cons in H. apply orb_true_iff in H as [H|H].
  - rewrite <- append_String in H.
    destruct (startsWith_append_elim _ _ _ H) as [Hl|[rest [Hs Hr]]].
    + left. apply includes_startsWith, Hl.
    + destruct (is_empty rest) eqn:Hrest.
      * left. destruct rest; [|discriminate].
        apply stripPrefix_Some in Hs. rewrite append_empty_r in Hs. subst p.
        apply includes_startsWith. rewrite <- (append_empty_r (String c a)) at 2.
        apply startsWith_append.
      * right; right. unfold straddles. cbn [suffixes existsb].
        rewrite Hs, Hrest, Hr. reflexivity.
  - destruct (IH H) as [Hl|[Hr|Hs]].
    + left. rewrite includes_cons, Hl. apply orb_true_r.
    + right; left. exact Hr.
    + right; right. unfold straddles in *. cbn [suffixes existsb].
      rewrite Hs. apply orb_true_r.
Qed.

Lemma straddles_overlapLeft p a b : overlapLeft p a = false -> straddles p a b = false.
Proof.
  unfold overlapLeft, straddles. induction (suffixes a) as [|a2 l IH]; [reflexivity|].
  cbn [existsb]. intros H. apply orb_false_iff in H as [H1 H2].
  rewrite (IH H2), orb_false_r.
  destruct (stripPrefix a2 p) as [rest|]; [|reflexivity].
  rewrite H1. reflexivity.
Qed.

Lemma stripPrefix_suffix a2 c p rest :
  a2 <> "" -> stripPrefix a2 (String c p) = Some rest -> is_empty rest = false ->
  In rest (suffixes p).
Proof.
  revert c p. induction a2 as [|d a2 IH]; intros c p Hne Hs Hrest; [congruence|].
  cbn [stripPrefix] in Hs. destruct (Ascii.eqb d c); [|discriminate].
  destruct a2 as [|e a2].
  - cbn in Hs. inversion Hs; subst rest. destruct p; [discriminate|]. left. reflexivity.
  - destruct p as [|c' p]; [discriminate|].
    cbn [suffixes]. right. apply (IH c' p); [discriminate|exact Hs|exact Hrest].
Qed.

Lemma suffixes_nonempty a x : In x (suffixes a) -> x <> "".
Proof.
  induction a as [|c a IH]; [intros []|]. intros [H|H]; [subst; discriminate|auto].
Qed.

Lemma startsWith_append_compatible rest lit more :
  startsWith rest (lit +:+ more) = true ->
  startsWith rest lit || startsWith lit rest = true.
Proof.
  revert lit. induction rest as [|c rest IH]; intros lit H; [reflexivity|].
  destruct lit as [|d lit]; [apply orb_true_r|].
  rewrite append_String in H. cbn [startsWith] in *.
  apply andb_true_iff in H as [H1 H2]. rewrite H1.
  apply Ascii.eqb_eq in H1. subst d. rewrite Ascii.eqb_refl. cbn [andb].
  apply IH, H2.
Qed.

Lemma straddles_overlapRight p a lit more :
  overlapRight p lit = false -> straddles p a (lit +:+ more) = false.
Proof.
  intros H. unfold straddles.
  apply not_true_is_false. intros Hs. apply existsb_exists in Hs as [a2 [Hin Hs]].
  destruct (stripPrefix a2 p) as [rest|] eqn:Hstrip; [|discriminate].
  apply andb_true_iff in Hs as [Hrest Hstart]. apply negb_true_iff in Hrest.
  destruct p as [|c p]; [apply stripPrefix_Some in Hstrip; destruct a2; [|discriminate];
                          exact (suffixes_nonempty _ _ Hin eq_refl)|].
  assert (Hr : In rest (suffixes p))
    by (eapply stripPrefix_suffix; eauto using suffixes_nonempty).
  apply startsWith_append_compatible in Hstart.
  cbn [overlapRight] in H.
  assert (existsb (fun rest => startsWith rest lit || startsWith lit rest) (suffixes p) = true)
    by (apply existsb_exists; exists rest; split; assumption).
  congruence.
Qed.

(** no occurrence across a literal on the left *)
Lemma includes_literal_l p lit b :
  includes p lit = false -> overlapLeft p lit = false ->
  includes p b = false -> includes p (lit +:+ b) = false.
Proof.
  intros H1 H2 H3. apply not_true_is_false. intros H.
  destruct (includes_append_elim _ _ _ H) as [Hl|[Hr|Hs]]; try congruence.
  rewrite (straddles_overlapLeft _ _ _ H2) in Hs. discriminate.
Qed.

(** no occurrence across the start of a literal on the right *)
Lemma includes_literal_r p a lit more :
  includes p a = false -> overlapRight p lit = false ->
  includes p (lit +:+ more) = false -> includes p (a +:+ lit +:+ more) = false.
Proof.
  intros H1 H2 H3. apply not_true_is_false. intros H.
  destruct (includes_append_elim _ _ _ H) as [Hl|[Hr|Hs]]; try congruence.
  rewrite (straddles_overlapRight _ _ _ _ H2) in Hs. discriminate.
Qed.


Lemma startsWith_allChars f p s :
  startsWith p s = true -> allChars f s = true -> allChars f p = true.
Proof.
  unfold allChars. revert s. induction p as [|c p IH]; intros s H Hs; [reflexivity|].
  destruct s as [|d s]; [discriminate|]. cbn in *.
  apply andb_true_iff in H as [H1 H2]. apply andb_true_iff in Hs as [Hd Hs].
  apply Ascii.eqb_eq in H1. subst d. rewrite Hd, (IH _ H2 Hs). reflexivity.
Qed.

(** a pattern with a character that [s] does not have does not occur in [s] *)
Lemma includes_allChars f p s :
  allChars f s = true -> allChars f p = false -> includes p s = false.
Proof.
  intros Hs Hp. induction s as [|c s IH].
  - cbn. rewrite orb_false_r. apply not_true_is_false. intros H.
    rewrite (startsWith_allChars f _ _ H Hs) in Hp. discriminate.
  - rewrite includes_cons. apply orb_false_iff. split.
    + apply not_true_is_false. intros H.
      rewrite (startsWith_allChars f _ _ H Hs) in Hp. discriminate.
    + apply IH. unfold allChars in *. cbn in Hs.
      apply andb_true_iff in Hs. apply Hs.
Qed.

Section Escaping.
Variables (c d : ascii) (p : string).
Hypothesis p_no_backslash : allChars (fun x => negb (Ascii.eqb x "\")) p = true.

Lemma startsWith_replaceAll q s :
  allChars (fun x => negb (Ascii.eqb x "\")) q = true ->
  startsWith q (replaceAll c (String "\" (String d "")) s) = true -> startsWith q s = true.
Proof.
  revert s. induction q as [|x q IH]; intros s Hq H; [apply startsWith_empty|].
  unfold allChars in Hq. cbn in Hq. apply andb_true_iff in Hq as [Hx Hq].
  destruct s as [|a s]; [discriminate|]. cbn [replaceAll] in H.
  destruct (Ascii.eqb a c).
  - rewrite !append_String in H. cbn [startsWith] in H.
    apply andb_true_iff in H as [H _]. apply Ascii.eqb_eq in H. subst x. discriminate.
  - cbn [startsWith] in *. apply andb_true_iff in H as [H1 H2].
    rewrite H1, (IH _ Hq H2). reflexivity.
Qed.

Hypothesis p_head : match p with
                    | EmptyString => false
                    | String x _ => negb (Ascii.eqb x d)
                    end = true.

Lemma includes_replaceAll s :
  includes p (replaceAll c (String "\" (String d "")) s) = true -> includes p s = true.
Proof.
  induction s as [|a s IH]; intros H; [exact H|].
  cbn [replaceAll] in H. rewrite includes_cons.
  destruct (Ascii.eqb a c).
  - rewrite !append_String, append_empty_l in H.
    rewrite !includes_cons in H.
    destruct p as [|x q] eqn:Hp; [discriminate|].
    assert (Hx : Ascii.eqb x "\" = false).
    { unfold allChars in p_no_backslash. cbn in p_no_backslash.
      apply andb_true_iff in p_no_backslash as [Hx _].
      apply negb_true_iff in Hx. exact Hx. }
    cbn [startsWith] in H. rewrite Hx in H. apply negb_true_iff in p_head.
    rewrite p_head in H. cbn [andb orb] in H.
    rewrite (IH H). apply orb_true_r.
  - rewrite includes_cons in H. apply orb_true_iff in H as [H|H].
    + assert (E : startsWith p (String a s) = true).
      { destruct p as [|x q]; [reflexivity|].
        cbn [startsWith] in *. apply andb_true_iff in H as [H1 H2]. rewrite H1.
        unfold allChars in p_no_backslash. cbn in p_no_backslash.
        apply andb_true_iff in p_no_backslash as [_ Hq].
        rewrite (startsWith_replaceAll _ _ Hq H2). reflexivity. }
      rewrite E. reflexivity.
    + rewrite (IH H). apply orb_true_r.
Qed.
End Escaping.

Lemma escapable_no_backslash p :
  escapable p = true -> allChars (fun x => negb (Ascii.eqb x "\")) p = true.
Proof.
  unfold escapable. destruct p; [discriminate|].
  intros H. apply andb_true_iff in H as [_ H]. exact H.
Qed.

Lemma includes_escapeSelector p s :
  escapable p = true ->
  includes p s = false -> includes p (PlaywrightGenerator.escapeSelector s) = false.
Proof.
  intros Hp Hs. apply not_true_is_false. intros H.
  unfold PlaywrightGenerator.escapeSelector in H.
  apply includes_replaceAll in H; [congruence|apply escapable_no_backslash, Hp|].
  unfold escapable in Hp. destruct p; [discriminate|].
  apply andb_true_iff in Hp as [Hp _]. apply andb_true_iff in Hp as [Hp _].
  apply andb_true_iff in Hp as [Hp _]. exact Hp.
Qed.

Lemma includes_escapeValue p s :
  escapable p = true ->
  includes p s = false -> includes p (PlaywrightGenerator.escapeValue s) = false.
Proof.
  intros Hp Hs. apply not_true_is_false. intros H.
  unfold PlaywrightGenerator.escapeValue in H.
  pose proof (escapable_no_backslash _ Hp) as Hb.
  unfold escapable in Hp. destruct p as [|x q] eqn:E; [discriminate|].
  apply andb_true_iff in Hp as [Hp _]. apply andb_true_iff in Hp as [Hp Hr].
  apply andb_true_iff in Hp as [Hq Hn].
  apply includes_replaceAll in H; [|exact Hb|exact Hr].
  apply includes_replaceAll in H; [|exact Hb|exact Hn].
  apply includes_replaceAll in H; [|exact Hb|exact Hq].
  congruence.
Qed.


Lemma includes_trimStart p s : includes p (trimStart s) = true -> includes p s = true.
Proof.
  induction s as [|c s IH]; [auto|]. cbn [trimStart].
  destruct (is_space c); [|auto]. intros H. rewrite includes_cons, (IH H).
  apply orb_true_r.
Qed.

Lemma trimEnd_prefix s : exists rest, s = trimEnd s +:+ rest.
Proof.
  induction s as [|c s [rest IH]]; [exists ""; reflexivity|].
  cbn [trimEnd]. destruct (is_space c && is_empty (trimEnd s)).
  - exists (String c s). reflexivity.
  - exists rest. rewrite append_String, <- IH. reflexivity.
Qed.

Lemma includes_trim p s : includes p s = false -> includes p (trim s) = false.
Proof.
  intros Hs. apply not_true_is_false. intros H. unfold trim in H.
  destruct (trimEnd_prefix (trimStart s)) as [rest E].
  apply (includes_append_l _ _ rest) in H. rewrite <- E in H.
  apply includes_trimStart in H. congruence.
Qed.

Lemma literalFree_elim p lit :
  literalFree p lit = true ->
  includes p lit = false /\ overlapLeft p lit = false /\ overlapRight p lit = false.
Proof.
  unfold literalFree. intros H.
  apply andb_true_iff in H as [H H3]. apply andb_true_iff in H as [H1 H2].
  repeat split; apply negb_true_iff; assumption.
Qed.

Lemma includes_empty p : escapable p = true -> includes p "" = false.
Proof. destruct p; [discriminate|reflexivity]. Qed.

(** [p] does not occur in [lit +:+ b] when it does not occur in [b] *)
Lemma free_literal p lit b :
  literalFree p lit = true -> includes p b = false -> includes p (lit +:+ b) = false.
Proof.
  intros H Hb. apply literalFree_elim in H as [H1 [H2 _]].
  apply includes_literal_l; assumption.
Qed.

(** [p] does not occur in [a +:+ lit +:+ b] when it occurs neither in
    [a] nor in [b] *)
Lemma free_variable p a lit b :
  includes p a = false -> literalFree p lit = true -> includes p b = false ->
  includes p (a +:+ lit +:+ b) = false.
Proof.
  intros Ha H Hb. pose proof (literalFree_elim _ _ H) as [H1 [H2 H3]].
  apply includes_literal_r; [assumption..|]. apply free_literal; assumption.
Qed.

Lemma free_variable_end p a lit :
  escapable p = true ->
  includes p a = false -> literalFree p lit = true ->
  includes p (a +:+ lit) = false.
Proof.
  intros Hp Ha H. rewrite <- (append_empty_r lit).
  apply free_variable; [assumption..|]. apply includes_empty, Hp.
Qed.

End StringFacts.

(** ** Dates *)

Section DateFacts.
Import JsDate.

Lemma dateOfEra_range doe :
  0 <= doe < 146097 ->
  let '(yoe, m, d) := dateOfEra doe in
  0 <= yoe <= 399 /\ 1 <= m <= 12 /\ 1 <= d <= 31 /\ dayOfEra yoe m d = doe.
Proof.
  intros H. unfold dateOfEra, dayOfEra.
  set (yoe := (doe - doe / 1460 + doe / 36524 - doe / 146096) / 365).
  set (doy := doe - (365 * yoe + yoe / 4 - yoe / 100)).
  set (mp := (5 * doy + 2) / 153).
  assert (Hyoe : 0 <= yoe <= 399 /\ 0 <= doy <= 365)
    by (subst doy yoe; Z.div_mod_to_equations; lia).
  assert (Hmp : 0 <= mp <= 11) by (subst mp; Z.div_mod_to_equations; lia).
  assert (Hd : 1 <= doy - (153 * mp + 2) / 5 + 1 <= 31)
    by (subst mp; Z.div_mod_to_equations; lia).
  destruct (mp <? 10) eqn:E.
  - apply Z.ltb_lt in E.
    replace (2 <? mp + 3) with true by (symmetry; apply Z.ltb_lt; lia).
    replace (mp + 3 - 3) with mp by lia. subst doy. repeat split; lia.
  - apply Z.ltb_ge in E.
    replace (2 <? mp - 9) with false by (symmetry; apply Z.ltb_ge; lia).
    replace (mp - 9 + 9) with mp by lia. subst doy. repeat split; lia.
Qed.

(** the day number of the date of a day number is that day number *)
Lemma daysFromCivil_civilFromDays z :
  let '(y, m, d) := civilFromDays z in
  daysFromCivil y m d = z /\ 1 <= m <= 12 /\ 1 <= d <= 31
  /\ (z + 719468) / 146097 * 400 <= y <= (z + 719468) / 146097 * 400 + 400.
Proof.
  unfold civilFromDays, daysFromCivil.
  pose proof (dateOfEra_range ((z + 719468) mod 146097)) as H.
  destruct (dateOfEra ((z + 719468) mod 146097)) as [[yoe m] d].
  destruct H as [Hy [Hm [Hd He]]]; [apply Z.mod_pos_bound; lia|].
  set (era := (z + 719468) / 146097) in *.
  replace (yoe + era * 400 + (if m <=? 2 then 1 else 0) - (if m <=? 2 then 1 else 0))
    with (yoe + era * 400) by lia.
  assert (E1 : (yoe + era * 400) / 400 = era)
    by (rewrite Z.div_add by lia; rewrite Z.div_small by lia; lia).
  assert (E2 : (yoe + era * 400) mod 400 = yoe)
    by (rewrite Z.mod_add by lia; apply Z.mod_small; lia).
  rewrite E1, E2, He.
  repeat split; try lia.
  - subst era. pose proof (Z.div_mod (z + 719468) 146097). lia.
  - destruct (m <=? 2); lia.
  - destruct (m <=? 2); lia.
Qed.

Lemma digitVal_digitChar m : 0 <= m <= 9 -> digitVal (digitChar m) = Some m.
Proof.
  intros H.
  assert (E : m = 0 \/ m = 1 \/ m = 2 \/ m = 3 \/ m = 4 \/ m = 5 \/ m = 6
              \/ m = 7 \/ m = 8 \/ m = 9) by lia.
  repeat (destruct E as [E|E]; [subst m; reflexivity|]). subst m. reflexivity.
Qed.

Lemma readDigits_digits (w : nat) :
  forall (v : nat) (n acc : Z) (k : string),
    0 <= n < 10 ^ Z.of_nat w ->
    readDigits (w + v) acc (digits w n k)
    = readDigits v (acc * 10 ^ Z.of_nat w + n) k.
Proof.
  induction w as [|w IH]; intros v n acc k H.
  - cbn [digits Nat.add]. f_equal. change (10 ^ Z.of_nat 0) with 1 in *. lia.
  - cbn [digits]. replace (S w + v)%nat with (w + S v)%nat by lia.
    rewrite Nat2Z.inj_succ, Z.pow_succ_r in H by lia.
    rewrite IH by (Z.div_mod_to_equations; lia).
    cbn [readDigits]. rewrite digitVal_digitChar by (Z.div_mod_to_equations; lia).
    f_equal. rewrite Nat2Z.inj_succ, Z.pow_succ_r by lia.
    Z.div_mod_to_equations; lia.
Qed.

Lemma readDigits_exact (w : nat) (n : Z) (k : string) :
  0 <= n < 10 ^ Z.of_nat w -> readDigits w 0 (digits w n k) = Some (n, k).
Proof.
  intros H. rewrite <- (Nat.add_0_r w) at 1.
  rewrite readDigits_digits by exact H. cbn [readDigits]. repeat f_equal; lia.
Qed.

Lemma digitChar_not_sign m c :
  0 <= m <= 9 -> (c = "+" \/ c = "-")%char -> Ascii.eqb (digitChar m) c = false.
Proof.
  intros H Hc.
  assert (E : m = 0 \/ m = 1 \/ m = 2 \/ m = 3 \/ m = 4 \/ m = 5 \/ m = 6
              \/ m = 7 \/ m = 8 \/ m = 9) by lia.
  destruct Hc; subst c.
  all: repeat (destruct E as [E|E]; [subst m; reflexivity|]).
  all: subst m; reflexivity.
Qed.

Lemma parseAfterYear_text (t y : Z) :
  Z.abs t <= maxTime ->
  (let '(y', m, d) := civilFromDays (t / msPerDay) in
   y' = y ->
   parseAfterYear y (afterYearText m d (t mod msPerDay)) = Some t).
Proof.
  intros Ht.
  pose proof (daysFromCivil_civilFromDays (t / msPerDay)) as Hc.
  destruct (civilFromDays (t / msPerDay)) as [[y' m] d].
  destruct Hc as [Hdays [Hm [Hd _]]]. intros ->.
  set (ms := t mod msPerDay).
  assert (Hms : 0 <= ms < 86400000) by (apply Z.mod_pos_bound; reflexivity).
  unfold parseAfterYear, afterYearText.
  cbn [expect Ascii.eqb Bool.eqb mbind option_bind].
  rewrite readDigits_exact by (change (10 ^ Z.of_nat 2) with 100; lia).
  cbn [expect Ascii.eqb Bool.eqb mbind option_bind].
  rewrite readDigits_exact by (change (10 ^ Z.of_nat 2) with 100; lia).
  cbn [expect Ascii.eqb Bool.eqb mbind option_bind].
  rewrite readDigits_exact
    by (change (10 ^ Z.of_nat 2) with 100; Z.div_mod_to_equations; lia).
  cbn [expect Ascii.eqb Bool.eqb mbind option_bind].
  rewrite readDigits_exact
    by (change (10 ^ Z.of_nat 2) with 100; Z.div_mod_to_equations; lia).
  cbn [expect Ascii.eqb Bool.eqb mbind option_bind].
  rewrite readDigits_exact
    by (change (10 ^ Z.of_nat 2) with 100; Z.div_mod_to_equations; lia).
  cbn [expect Ascii.eqb Bool.eqb mbind option_bind].
  rewrite readDigits_exact
    by (change (10 ^ Z.of_nat 3) with 1000; Z.div_mod_to_equations; lia).
  cbn [expect Ascii.eqb Bool.eqb mbind option_bind is_empty andb].
  replace (1 <=? m) with true by (symmetry; apply Z.leb_le; lia).
  replace (m <=? 12) with true by (symmetry; apply Z.leb_le; lia).
  replace (1 <=? d) with true by (symmetry; apply Z.leb_le; lia).
  replace (d <=? 31) with true by (symmetry; apply Z.leb_le; lia).
  replace (ms / 3600000 <=? 23) with true
    by (symmetry; apply Z.leb_le; Z.div_mod_to_equations; lia).
  replace (ms / 60000 mod 60 <=? 59) with true
    by (symmetry; apply Z.leb_le; Z.div_mod_to_equations; lia).
  replace (ms / 1000 mod 60 <=? 59) with true
    by (symmetry; apply Z.leb_le; Z.div_mod_to_equations; lia).
  cbn [andb]. rewrite Hdays.
  assert (E : t / msPerDay * msPerDay + ms / 3600000 * 3600000
              + ms / 60000 mod 60 * 60000 + ms / 1000 mod 60 * 1000
              + ms mod 1000 = t).
  { subst ms. unfold msPerDay. Z.div_mod_to_equations. lia. }
  cbv zeta. rewrite E.
  replace (maxTime <? Z.abs t) with false by (symmetry; apply Z.ltb_ge; exact Ht).
  reflexivity.
Qed.

Lemma readYear_four (y : Z) (rest : string) :
  0 <= y <= 9999 -> readYear (digits 4 y rest) = Some (y, rest).
Proof.
  intros Hy. pose proof (readDigits_exact 4 y rest) as H.
  cbn [digits] in *. unfold readYear.
  assert (Hd3 : 0 <= y / 10 / 10 / 10 mod 10 <= 9) by (Z.div_mod_to_equations; lia).
  rewrite (digitChar_not_sign _ "+"%char Hd3) by auto.
  rewrite (digitChar_not_sign _ "-"%char Hd3) by auto.
  apply H. change (10 ^ Z.of_nat 4) with 10000. lia.
Qed.

Lemma readYear_six (y : Z) (rest : string) :
  - 1000000 < y < 1000000 -> (y < 0 \/ 9999 < y) ->
  readYear (String (if y <? 0 then "-" else "+") (digits 6 (Z.abs y) rest))
  = Some (y, rest).
Proof.
  intros Hy Hout. unfold readYear.
  destruct (y <? 0) eqn:E.
  - apply Z.ltb_lt in E. cbn [Ascii.eqb Bool.eqb].
    rewrite readDigits_exact by (change (10 ^ Z.of_nat 6) with 1000000; lia).
    replace (Z.abs y =? 0) with false by (symmetry; apply Z.eqb_neq; lia).
    do 2 f_equal. lia.
  - apply Z.ltb_ge in E. cbn [Ascii.eqb Bool.eqb].
    rewrite readDigits_exact by (change (10 ^ Z.of_nat 6) with 1000000; lia).
    do 2 f_equal. lia.
Qed.

(** parsing the text of a time value gives the time value back *)
Lemma parse_toISOString (t : Z) :
  Z.abs t <= maxTime ->
  exists iso, toISOString t = Ok iso /\ parse iso = Num t.
Proof.
  intros Ht. unfold toISOString.
  replace (maxTime <? Z.abs t) with false by (symmetry; apply Z.ltb_ge; exact Ht).
  pose proof (parseAfterYear_text t) as Hrest.
  pose proof (daysFromCivil_civilFromDays (t / msPerDay)) as Hc.
  destruct (civilFromDays (t / msPerDay)) as [[y m] d].
  destruct Hc as [_ [_ [_ Hy]]].
  assert (Hyear : -1000000 < y < 1000000).
  { unfold maxTime, msPerDay in *. Z.div_mod_to_equations. lia. }
  specialize (Hrest y Ht eq_refl).
  eexists. split; [reflexivity|]. unfold parse.
  destruct ((0 <=? y) && (y <=? 9999)) eqn:Ey.
  - apply andb_true_iff in Ey as [Ey1 Ey2]. apply Z.leb_le in Ey1, Ey2.
    rewrite readYear_four by lia. cbn [mbind option_bind]. rewrite Hrest. reflexivity.
  - rewrite readYear_six; [cbn [mbind option_bind]; rewrite Hrest; reflexivity|lia|].
    apply andb_false_iff in Ey as [Ey|Ey]; [left; apply Z.leb_gt in Ey; lia|].
    right. apply Z.leb_gt in Ey. lia.
Qed.

Lemma isoChar_digitChar m : 0 <= m <= 9 -> isoChar (digitChar m) = true.
Proof.
  intros H.
  assert (E : m = 0 \/ m = 1 \/ m = 2 \/ m = 3 \/ m = 4 \/ m = 5 \/ m = 6
              \/ m = 7 \/ m = 8 \/ m = 9) by lia.
  repeat (destruct E as [E|E]; [subst m; reflexivity|]). subst m. reflexivity.
Qed.

Lemma allChars_digits (w : nat) :
  forall (n : Z) (k : string),
    allChars isoChar k = true -> allChars isoChar (digits w n k) = true.
Proof.
  induction w as [|w IH]; intros n k Hk; [exact Hk|].
  cbn [digits]. apply IH. unfold allChars in *. cbn.
  rewrite isoChar_digitChar by (Z.div_mod_to_equations; lia). exact Hk.
Qed.

(** the text of a time value is made of digits and of the characters
    [-], [+], [:], [.], [T] and [Z] *)
Lemma toISOString_chars (t : Z) (iso : string) :
  toISOString t = Ok iso -> allChars isoChar iso = true.
Proof.
  unfold toISOString. destruct (maxTime <? Z.abs t); [discriminate|].
  destruct (civilFromDays (t / msPerDay)) as [[y m] d].
  intros H. injection H as <-.
  assert (Hrest : allChars isoChar (afterYearText m d (t mod msPerDay)) = true).
  { unfold afterYearText.
    repeat first [apply allChars_digits | reflexivity
                 | (unfold allChars; cbn [list_ascii_of_string forallb isoChar];
                    fold (allChars isoChar)) ]. }
  destruct ((0 <=? y) && (y <=? 9999)); [exact (allChars_digits 4 y _ Hrest)|].
  pose proof (allChars_digits 6 (Z.abs y) _ Hrest) as H6.
  unfold allChars in *. cbn [list_ascii_of_string forallb].
  apply andb_true_iff. split; [destruct (y <? 0); reflexivity|exact H6].
Qed.
End DateFacts.


(** ** The recorder *)

Section RecorderProperties.
Context {host : Host}.
Import ActionRecorder.

(** C1.  When the injection of the capture listener into the page
    throws, [startRecording] rethrows that error and leaves the recorder
    idle: [isRecording] is false, [currentRecording] is null and the
    current tab is null; the list of saved recordings is untouched. *)
Theorem startRecording_injection_failure_restores_idle :
  forall (this : ActionRecorder.t) (w w' : World) (tab : Tab)
         (name : string) (description : option string)
         (uuid : string) (now1 now2 : Z) (e : JsError),
    isRecording (state this) = false ->
    injectRecorderScript w tab = (w', Throw e) ->
    exists this',
      startRecording this w tab name description uuid now1 now2
        = (this', w', Throw e)
      /\ isRecording (state this') = false
      /\ isPaused (state this') = false
      /\ currentRecording (state this') = None
      /\ currentTab this' = None
      /\ recordings (state this') = recordings (state this).
Proof.
  intros this w w' tab name description uuid now1 now2 e Hidle Hinj.
  unfold startRecording. rewrite Hidle, Hinj.
  eexists. split; [reflexivity|]. cbn. repeat split.
Qed.

(** C6, as the code has it.  [pauseRecording] and [resumeRecording]
    fail with the not-recording error exactly when no recording is in
    progress ([isRecording] false).  While a recording is in progress,
    paused or not, [pauseRecording] sets [isPaused] and
    [resumeRecording] clears it, and nothing else changes. *)
Theorem pause_resume_guarded_by_isRecording :
  forall this : ActionRecorder.t,
    pauseRecording this
      = (if isRecording (state this)
         then Ok {| state := {| isRecording := true; isPaused := true;
                                currentRecording := currentRecording (state this);
                                recordings := recordings (state this) |};
                    currentTab := currentTab this |}
         else Throw (Error "Not recording"))
    /\ resumeRecording this
      = (if isRecording (state this)
         then Ok {| state := {| isRecording := true; isPaused := false;
                                currentRecording := currentRecording (state this);
                                recordings := recordings (state this) |};
                    currentTab := currentTab this |}
         else Throw (Error "Not recording")).
Proof.
  intros this. unfold pauseRecording, resumeRecording.
  destruct (isRecording (state this)); split; reflexivity.
Qed.
End RecorderProperties.

(** C1 on an example: a fresh recorder on a page that rejects the
    injected script. *)
Lemma startRecording_injection_failure_example :
  exists this',
    ActionRecorder.startRecording (host := rejectingHost "")
      ActionRecorder.new () exampleTab "Recording-1" None "4d6870eb" 1 2
      = (this', (), Throw (Error "Script failed to execute"))
    /\ isRecording (ActionRecorder.state this') = false
    /\ isPaused (ActionRecorder.state this') = false
    /\ currentRecording (ActionRecorder.state this') = None
    /\ ActionRecorder.currentTab this' = None
    /\ recordings (ActionRecorder.state this')
       = recordings (ActionRecorder.state ActionRecorder.new).
Proof.
  apply (startRecording_injection_failure_restores_idle
           (host := rejectingHost "")); reflexivity.
Defined.

(** C6 fails as stated: pausing a recorder that is already paused
    succeeds, and so does resuming one that is recording and not
    paused. *)
Lemma pause_while_paused_succeeds :
  ActionRecorder.pauseRecording (recorderInProgress true)
    = Ok (recorderInProgress true)
  /\ ActionRecorder.resumeRecording (recorderInProgress false)
    = Ok (recorderInProgress false)
  /\ ActionRecorder.pauseRecording (recorderInProgress true)
     <> Throw (Error "Not recording")
  /\ ActionRecorder.resumeRecording (recorderInProgress false)
     <> Throw (Error "Not recording").
Proof. repeat split; discriminate. Qed.

(** ** The replayer *)

Section ReplayerProperties.
Context {host : Host}.
Import ActionReplayer.


Lemma executeLines_calls :
  forall (lines : list string) (w : World),
    callsOf (snd (executeLines w lines)) = omap recognize lines.
Proof.
  induction lines as [|line rest IH]; intros w; [reflexivity|].
  cbn [executeLines omap list_omap].
  destruct (executeLine w line) as [w1 t1] eqn:E1.
  specialize (IH w1). destruct (executeLines w1 rest) as [w2 t2]. cbn in *.
  unfold callsOf in *. rewrite omap_app, IH. unfold executeLine in E1.
  destruct (recognize line) as [c|].
  - destruct (perform w c) as [w' [[]|e]]; inversion E1; subst; reflexivity.
  - inversion E1; subst; reflexivity.
Qed.

(** C7.  Once the script has been read, the execution loop never
    throws, and the calls it makes on the page are exactly the commands
    recognised on the lines of the script, line after line, whatever
    the outcome of each call: a call that fails is logged and the
    following lines are still executed. *)
Theorem execution_continues_after_failures :
  forall (w : World) (recordingId content : string),
    readScript w recordingId = Ok content ->
    exists w' trace,
      executePlaywrightInCurrentTab w recordingId = (w', trace, Ok ())
      /\ callsOf trace = omap recognize (JsString.split newline content).
Proof.
  intros w recordingId content Hread.
  unfold executePlaywrightInCurrentTab. rewrite Hread.
  pose proof (executeLines_calls (JsString.split newline content) w) as H.
  destruct (executeLines w _) as [w' trace]. cbn in H.
  exists w', trace. split; [reflexivity|exact H].
Qed.
(** A replay of a recording without target site completes, whatever
    the outcome of the calls made on the page. *)
Lemma startReplay_completes_despite_failures :
  forall (this : ActionReplayer.t) (w : World) (tab : Tab) (rec : Recording)
         (observer : option nat) (content : string),
    is_running (state this) = false ->
    readScript w (r_id rec) = Ok content ->
    r_metadata rec = None ->
    exists this' w' trace,
      startReplay this w tab rec observer = (this', w', trace, Ok ())
      /\ state this' = completed
      /\ callsOf trace = omap recognize (JsString.split newline content).
Proof.
  intros this w tab rec observer content Hrun Hread Hmeta.
  unfold startReplay, begin. rewrite Hrun.
  unfold executePlaywrightInCurrentTab. rewrite Hread.
  pose proof (executeLines_calls (JsString.split newline content) w) as H.
  destruct (executeLines w _) as [w' trace]. cbn in H.
  unfold afterExecution. cbn [recording]. rewrite Hmeta. cbn [truthy].
  do 3 eexists. split; [reflexivity|]. split; [|exact H].
  unfold complete, emitStatus. cbn. destruct observer; reflexivity.
Qed.
End ReplayerProperties.


(** C7 on an example: on a page that rejects every script, each of the
    three commands is still attempted. *)
Lemma execution_continues_example :
  exists w' trace,
    ActionReplayer.executePlaywrightInCurrentTab
      (host := rejectingHost threeCommands) () "4d6870eb" = (w', trace, Ok ())
    /\ ActionReplayer.callsOf trace
       = omap ActionReplayer.recognize (JsString.split newline threeCommands).
Proof.
  apply (execution_continues_after_failures (host := rejectingHost threeCommands)).
  reflexivity.
Defined.

(** ** The replayer never reports progress *)

Section ReplayerProgress.
Import ActionReplayer.

Lemma emitStatus_invariant (this : ActionReplayer.t) (message err : option string) :
  progressInvariant this -> progressInvariant (emitStatus this message err).
Proof.
  intros [Hidx Hall]. unfold emitStatus.
  destruct (onStatusChange this); [|split; assumption].
  split; [exact Hidx|]. cbn. apply Forall_app. split; [exact Hall|].
  constructor; [|constructor]. split; [exact Hidx|reflexivity].
Qed.

Lemma setState_invariant (this : ActionReplayer.t) (s : ReplayState) :
  progressInvariant this -> progressInvariant (setState this s).
Proof. intros H. exact H. Qed.

Lemma step_invariant (this : ActionReplayer.t) (s : Step) :
  progressInvariant this -> progressInvariant (step this s).
Proof.
  intros H. destruct s as [rec observer| |e| | |]; cbn [step].
  - unfold begin. destruct (is_running (state this)); [exact H|].
    destruct H as [_ Hall]. split; [reflexivity|exact Hall].
  - apply emitStatus_invariant, setState_invariant, H.
  - apply emitStatus_invariant, setState_invariant, H.
  - unfold pause. destruct (is_running (state this)); [|exact H].
    apply emitStatus_invariant, setState_invariant, H.
  - unfold resume. destruct (state this); try exact H;
      apply emitStatus_invariant, setState_invariant, H.
  - unfold stop. apply emitStatus_invariant.
    destruct H as [_ Hall]. split; [reflexivity|exact Hall].
Qed.

Lemma run_invariant (steps : list Step) (this : ActionReplayer.t) :
  progressInvariant this -> progressInvariant (run this steps).
Proof.
  revert this. induction steps as [|s steps IH]; intros this H; [exact H|].
  cbn. apply IH, step_invariant, H.
Qed.

(** C10.  Whatever sequence of operations a fresh replayer goes
    through (starts of replays, their completions and failures, pause,
    resume, stop, in any order), [currentActionIndex] is 0; every
    status returned by [getStatus] has [currentActionIndex] 0 and
    [totalActions] 0; and every status passed to the status-change
    observer has [currentActionIndex] 0 and, as [totalActions], the
    manual-step count of the replayer's recording at that moment (0
    when it has none): never a count of executed commands. *)
Theorem replayer_never_reports_progress :
  forall steps : list Step,
    let this := run new steps in
    currentActionIndex this = 0
    /\ rs_currentActionIndex (getStatus this) = 0
    /\ rs_totalActions (getStatus this) = O
    /\ Forall reportsNoProgress (notified this).
Proof.
  intros steps this.
  assert (H : progressInvariant this).
  { apply run_invariant. split; [reflexivity|constructor]. }
  destruct H as [Hidx Hall]. repeat split; assumption.
Qed.

(** A complete [startReplay] is a [StartBegins] step followed by a
    [StartCompletes] or a [StartFails] step, or no step at all when
    the guard rejects it. *)
Lemma startReplay_is_steps {host : Host} :
  forall (this : ActionReplayer.t) (w : World) (tab : Tab)
         (rec : Recording) (observer : option nat),
    exists steps,
      fst (fst (fst (startReplay this w tab rec observer))) = run this steps.
Proof.
  intros this w tab rec observer. unfold startReplay.
  destruct (begin this rec observer) as [this1|e0] eqn:Hb.
  - assert (H1 : this1 = step this (StartBegins rec observer))
      by (cbn; rewrite Hb; reflexivity).
    destruct (executePlaywrightInCurrentTab w (r_id rec)) as [[w1 trace] [[]|e]].
    + unfold afterExecution.
      destruct (recording this1);
        [|eexists [StartBegins rec observer; StartFails _]; cbn; rewrite Hb; reflexivity].
      destruct (truthy _);
        [|exists [StartBegins rec observer; StartCompletes]; cbn; rewrite Hb; reflexivity].
      destruct (hostnameOf _) as [domain|e];
        [|exists [StartBegins rec observer; StartFails e]; cbn; rewrite Hb; reflexivity].
      destruct (saveSession w1 domain) as [w2 [[]|e]].
      * exists [StartBegins rec observer; StartCompletes]; cbn; rewrite Hb; reflexivity.
      * exists [StartBegins rec observer; StartFails e]; cbn; rewrite Hb; reflexivity.
    + exists [StartBegins rec observer; StartFails e]; cbn; rewrite Hb; reflexivity.
  - exists []. reflexivity.
Qed.
End ReplayerProgress.

(** ** The generator: consolidation of input actions *)

Section Consolidation.
Context {json : JsonModel}.
Import PlaywrightGenerator.



Lemma isInputOn_type sel a : isInputOn sel a = true -> a_type a = input.
Proof. unfold isInputOn. destruct (a_type a); congruence. Qed.

Lemma isInputOn_selector sel a :
  isInputOn sel a = true -> getSelectorString (a_selector a) = sel.
Proof.
  unfold isInputOn. destruct (a_type a); try discriminate.
  apply String.eqb_eq.
Qed.

(** an input action that is followed by another input on the same
    selector pushes no command and leaves its selector pending *)
Lemma processAction_input_pending sel st a n :
  pendingMatches st (Some a) ->
  isInputOn sel a = true -> isInputOn sel n = true ->
  exists st',
    processAction st a (Some n) = Ok (navigationLines st a, st')
    /\ lastInputSelector st' = Some sel.
Proof.
  intros Hp Ha Hn. unfold processAction, navigationLines, navigationComment.
  rewrite (isInputOn_type _ _ Ha). unfold inputCase.
  rewrite (isInputOn_selector _ _ Ha).
  assert (E1 : (match lastInputSelector st with
     | Some prev =>
         if negb (sel =? prev)%string && negb (is_empty prev)
         then match consolidatedInputs st !! prev with
              | Some value => Ok ([generateInputCommand prev value (a_selector a)],
                                  (∅ : gmap string string))
              | None => Throw undefinedReplace
              end
         else Ok ([], consolidatedInputs st)
     | None => Ok ([], consolidatedInputs st)
     end) = Ok ([], consolidatedInputs st)).
  { unfold pendingMatches in Hp. destruct (lastInputSelector st) as [prev|]; [|reflexivity].
    cbn in Hp. apply isInputOn_selector in Hp.
    rewrite (isInputOn_selector _ _ Ha) in Hp. subst prev.
    rewrite String.eqb_refl. reflexivity. }
  rewrite E1. cbn [bind]. rewrite Hn. cbn [negb bind].
  eexists. split; [rewrite app_nil_r; reflexivity|reflexivity].
Qed.

(** an input action that is not followed by an input on the same
    selector pushes its fill command and leaves nothing pending *)
Lemma processAction_input_flush sel st a next :
  pendingMatches st (Some a) ->
  isInputOn sel a = true -> inputOn sel next = false ->
  exists st',
    processAction st a next
      = Ok (navigationLines st a
              ++ [generateInputCommand sel (orElse (a_value a) "") (a_selector a)], st')
    /\ lastInputSelector st' = None /\ consolidatedInputs st' = ∅.
Proof.
  intros Hp Ha Hn. unfold processAction, navigationLines, navigationComment.
  rewrite (isInputOn_type _ _ Ha). unfold inputCase.
  rewrite (isInputOn_selector _ _ Ha).
  assert (E1 : (match lastInputSelector st with
     | Some prev =>
         if negb (sel =? prev)%string && negb (is_empty prev)
         then match consolidatedInputs st !! prev with
              | Some value => Ok ([generateInputCommand prev value (a_selector a)],
                                  (∅ : gmap string string))
              | None => Throw undefinedReplace
              end
         else Ok ([], consolidatedInputs st)
     | None => Ok ([], consolidatedInputs st)
     end) = Ok ([], consolidatedInputs st)).
  { unfold pendingMatches in Hp. destruct (lastInputSelector st) as [prev|]; [|reflexivity].
    cbn in Hp. apply isInputOn_selector in Hp.
    rewrite (isInputOn_selector _ _ Ha) in Hp. subst prev.
    rewrite String.eqb_refl. reflexivity. }
  rewrite E1. cbn [bind].
  assert (E2 : (match next with Some n => negb (isInputOn sel n) | None => true end) = true).
  { destruct next as [n|]; [cbn in Hn; rewrite Hn|]; reflexivity. }
  rewrite E2. rewrite lookup_insert_eq. cbn [bind app].
  eexists. repeat split.
Qed.







End Consolidation.


(** ** The generator: wait actions *)

Section WaitCommand.
Context {json : JsonModel}.
Import PlaywrightGenerator.

(** The default of 1000 ms is taken when the value is undefined or the
    empty string. *)
Lemma wait_default_when_value_absent (action : RecordedAction) :
  truthy (a_value action) = false ->
  generateWaitCommand action = "  await page.waitForTimeout(1000);".
Proof.
  unfold generateWaitCommand, truthy, orElse.
  destruct (a_value action) as [v|]; [|reflexivity].
  destruct (is_empty v); [reflexivity|discriminate].
Qed.

(** C5, where the code departs from it.  A wait action whose value is
    the non-numeric text [abc] produces a pause command whose duration
    is [NaN], not the default of 1000 ms: the default only replaces an
    absent or empty value, before [parseInt] is applied. *)
Theorem wait_nonnumeric_value_emits_NaN :
  let action := exampleAction wait None (Some "abc") None in
  generateWaitCommand action = "  await page.waitForTimeout(NaN);"
  /\ generateWaitCommand action <> "  await page.waitForTimeout(1000);"
  /\ generateLines exampleMetadata [action]
     = Ok ["import { test, expect } from '@playwright/test';";
           "";
           "// Recording ID: 4d6870eb";
           "// Created: 2025-11-17T00:55:07.065Z";
           "";
           "test('Recording-1', async ({ page }) => {";
           "  // Navigate to starting URL";
           "  await page.goto('https://example.com/');";
           "";
           "  await page.waitForTimeout(NaN);";
           "});"].
Proof. repeat split. discriminate. Qed.
End WaitCommand.

(** ** The generator and the replayer: lines that are not commands *)

Section Templates.
Context {json : JsonModel}.
Import PlaywrightGenerator.
Variable p : string.

Lemma foreignTo_escapable lits : foreignTo lits p = true -> escapable p = true.
Proof.
  unfold foreignTo. intros H. apply andb_true_iff in H as [H _].
  apply andb_true_iff in H as [H _]. exact H.
Qed.

Lemma foreignTo_literal lits lit :
  foreignTo lits p = true -> In lit lits -> literalFree p lit = true.
Proof.
  unfold foreignTo. intros H Hin. apply andb_true_iff in H as [_ H].
  rewrite forallb_forall in H. apply H, Hin.
Qed.

Lemma includes_number lits (n : JsNumber) :
  foreignTo lits p = true -> includes p (JsNumber.toString n) = false.
Proof.
  unfold foreignTo. intros H. apply andb_true_iff in H as [H _].
  apply andb_true_iff in H as [_ H]. apply negb_true_iff in H.
  apply (includes_allChars numberChar); [|exact H].
  assert (Hu : forall d, allChars numberChar (NilEmpty.string_of_uint d) = true).
  { induction d; try reflexivity; unfold allChars in *; cbn; exact IHd. }
  destruct n as [|z]; [reflexivity|]. cbn [JsNumber.toString].
  unfold NilZero.string_of_int, NilZero.string_of_uint.
  destruct (Z.to_int z) as [d|d].
  - destruct d; try reflexivity; apply (Hu (_ d)).
  - destruct d; try reflexivity;
      unfold allChars; cbn [list_ascii_of_string forallb numberChar];
      cbn [andb]; apply (Hu (_ d)).
Qed.

Lemma generateSelectCommand_free (a : RecordedAction) :
  foreignTo selectLiterals p = true ->
  includes p (getPreferredSelector (a_selector a)) = false ->
  includes p (orElse (a_value a) "") = false ->
  includes p (generateSelectCommand a) = false.
Proof.
  intros Hp Hs Hv. pose proof (foreignTo_escapable _ Hp) as He.
  unfold generateSelectCommand.
  apply free_literal; [apply (foreignTo_literal _ _ Hp); cbn; tauto|].
  apply free_variable;
    [apply includes_escapeSelector; assumption
    |apply (foreignTo_literal _ _ Hp); cbn; tauto|].
  apply free_variable_end;
    [assumption|apply includes_escapeValue; assumption
    |apply (foreignTo_literal _ _ Hp); cbn; tauto].
Qed.

Lemma generateScrollCommand_free (a : RecordedAction) :
  foreignTo scrollLiterals p = true ->
  match scrollOf (orElse (a_value a) "{}") with
  | Some (x, y) => includes p x = false /\ includes p y = false
  | None => True
  end ->
  includes p (generateScrollCommand a) = false.
Proof.
  intros Hp H. pose proof (foreignTo_escapable _ Hp) as He.
  unfold generateScrollCommand.
  destruct (scrollOf _) as [[x y]|].
  - destruct H as [Hx Hy].
    apply free_literal; [apply (foreignTo_literal _ _ Hp); cbn; tauto|].
    apply free_variable; [assumption|apply (foreignTo_literal _ _ Hp); cbn; tauto|].
    apply free_variable_end;
      [assumption..|apply (foreignTo_literal _ _ Hp); cbn; tauto].
  - pose proof (foreignTo_literal _ "  await page.evaluate(() => window.scrollTo(0, 0));" Hp) as H0.
    apply literalFree_elim in H0 as [H0 _]; [exact H0|cbn; tauto].
Qed.

Lemma generateWaitCommand_free (a : RecordedAction) :
  foreignTo waitLiterals p = true ->
  includes p (generateWaitCommand a) = false.
Proof.
  intros Hp. pose proof (foreignTo_escapable _ Hp) as He.
  unfold generateWaitCommand.
  apply free_literal; [apply (foreignTo_literal _ _ Hp); cbn; tauto|].
  apply free_variable_end;
    [assumption|apply (includes_number _ _ Hp)
    |apply (foreignTo_literal _ _ Hp); cbn; tauto].
Qed.
End Templates.

Section InertLines.
Context {json : JsonModel} {host : Host}.
Import PlaywrightGenerator ActionReplayer.

Lemma freeOf_cons p ps s :
  freeOf (p :: ps) s = true -> includes p s = false /\ freeOf ps s = true.
Proof.
  unfold freeOf. cbn [forallb]. intros H. apply andb_true_iff in H as [H1 H2].
  apply negb_true_iff in H1. split; assumption.
Qed.

(** a line without any of the four command texts leads to no call *)
Lemma recognize_free (line : string) :
  freeOf commandPrefixes line = true -> recognize line = None.
Proof.
  intros H. unfold commandPrefixes in H.
  apply freeOf_cons in H as [H1 H]. apply freeOf_cons in H as [H2 H].
  apply freeOf_cons in H as [H3 H]. apply freeOf_cons in H as [H4 _].
  unfold recognize. destruct (_ || _); [reflexivity|].
  unfold commandOf.
  rewrite (includes_trim _ _ H1), (includes_trim _ _ H2),
    (includes_trim _ _ H3), (includes_trim _ _ H4).
  reflexivity.
Qed.

(** a navigation comment is skipped as a comment *)
Lemma recognize_navigationComment (url : string) :
  recognize ("  // Page navigated to: " +:+ url) = None.
Proof. reflexivity. Qed.

Lemma executeLine_unrecognized (w : World) (line : string) :
  recognize line = None -> executeLine w line = (w, []).
Proof. intros H. unfold executeLine. rewrite H. reflexivity. Qed.

Lemma freeOf_forall ps s :
  freeOf ps s = true -> forall p, In p ps -> includes p s = false.
Proof.
  unfold freeOf. rewrite forallb_forall. intros H p Hin.
  apply negb_true_iff, H, Hin.
Qed.

Lemma freeOf_intro ps s :
  (forall p, In p ps -> includes p s = false) -> freeOf ps s = true.
Proof.
  intros H. unfold freeOf. apply forallb_forall. intros p Hin.
  apply negb_true_iff, H, Hin.
Qed.

Lemma commandPrefixes_foreign p :
  In p commandPrefixes ->
  foreignTo selectLiterals p = true /\ foreignTo scrollLiterals p = true
  /\ foreignTo waitLiterals p = true.
Proof.
  intros [<-|[<-|[<-|[<-|[]]]]]; repeat split; vm_compute; reflexivity.
Qed.

(** C9, as the code has it.  For a select, scroll or wait action whose
    own texts (selector string and value; rendered coordinates; nothing
    for a wait) contain none of the four command texts the replayer
    looks for, the loop of the generator pushes the command of the
    action, preceded by a navigation comment when the URL changed, and
    the replayer recognises no command on any of these lines: executing
    them makes no call on the page. *)
Theorem select_scroll_wait_not_executed :
  forall (st : LoopState) (a : RecordedAction) (next : option RecordedAction),
    a_type a = select \/ a_type a = scroll \/ a_type a = wait ->
    forallb (freeOf commandPrefixes) (embeddedTexts a) = true ->
    exists (command : string) (st' : LoopState),
      processAction st a next = Ok (navigationLines st a ++ [command], st')
      /\ (a_type a = select /\ command = generateSelectCommand a
          \/ a_type a = scroll /\ command = generateScrollCommand a
          \/ a_type a = wait /\ command = generateWaitCommand a)
      /\ Forall (fun line => recognize line = None
                             /\ forall w : World, executeLine w line = (w, []))
           (navigationLines st a ++ [command]).
Proof.
  intros st a next Ht Hfree.
  assert (Hnav : Forall (fun line => recognize line = None
                     /\ forall w : World, executeLine w line = (w, []))
                   (navigationLines st a)).
  { unfold navigationLines, navigationComment.
    destruct (negb _); constructor; [|constructor].
    split; [reflexivity|]. intros w. reflexivity. }
  assert (Hcmd : forall command,
             freeOf commandPrefixes command = true ->
             Forall (fun line => recognize line = None
                       /\ forall w : World, executeLine w line = (w, []))
               (navigationLines st a ++ [command])).
  { intros command Hc. apply Forall_app. split; [exact Hnav|].
    constructor; [|constructor]. pose proof (recognize_free _ Hc) as Hr.
    split; [exact Hr|]. intros w. apply executeLine_unrecognized, Hr. }
  unfold embeddedTexts in Hfree.
  destruct Ht as [Ht|[Ht|Ht]]; rewrite Ht in Hfree.
  - exists (generateSelectCommand a). eexists.
    split; [unfold processAction; rewrite Ht; reflexivity|].
    split; [left; split; [exact Ht|reflexivity]|].
    apply Hcmd. cbn [forallb] in Hfree.
    apply andb_true_iff in Hfree as [Hs Hv]. apply andb_true_iff in Hv as [Hv _].
    apply freeOf_intro. intros p Hin.
    apply generateSelectCommand_free;
      [apply commandPrefixes_foreign, Hin
      |apply (freeOf_forall _ _ Hs), Hin|apply (freeOf_forall _ _ Hv), Hin].
  - exists (generateScrollCommand a). eexists.
    split; [unfold processAction; rewrite Ht; reflexivity|].
    split; [right; left; split; [exact Ht|reflexivity]|].
    apply Hcmd. apply freeOf_intro. intros p Hin.
    apply generateScrollCommand_free; [apply commandPrefixes_foreign, Hin|].
    destruct (scrollOf _) as [[x y]|]; [|exact I].
    cbn [forallb] in Hfree.
    apply andb_true_iff in Hfree as [Hx Hy]. apply andb_true_iff in Hy as [Hy _].
    split; [apply (freeOf_forall _ _ Hx), Hin|apply (freeOf_forall _ _ Hy), Hin].
  - exists (generateWaitCommand a). eexists.
    split; [unfold processAction; rewrite Ht; reflexivity|].
    split; [right; right; split; [exact Ht|reflexivity]|].
    apply Hcmd. apply freeOf_intro. intros p Hin.
    apply generateWaitCommand_free. apply commandPrefixes_foreign, Hin.
Qed.
End InertLines.

(** C9 fails as stated: the line generated for [misleadingSelect] contains
    the click text and matches the click pattern, so the replayer
    performs a click, on the selector made of a comma and a space. *)
Lemma select_line_executed_as_click :
  PlaywrightGenerator.generateSelectCommand misleadingSelect
    = "  await page.selectOption('#await page.click(', ')');"
  /\ ActionReplayer.recognize
       (PlaywrightGenerator.generateSelectCommand misleadingSelect)
     = Some (ActionReplayer.ExecuteClick ", ")
  /\ ActionReplayer.executeLine (host := obligingHost "") ()
       (PlaywrightGenerator.generateSelectCommand misleadingSelect)
     = ((), [ActionReplayer.Called (ActionReplayer.ExecuteClick ", ");
             ActionReplayer.Slept 500]).
Proof. repeat split. Qed.

(** C9 on an example: the choice of an option in a list of countries. *)
Lemma select_not_executed_example :
  let a := exampleAction select (selectorById "country") (Some "SE") None in
  exists (command : string) (st' : PlaywrightGenerator.LoopState),
    PlaywrightGenerator.processAction (json := noJson)
      (PlaywrightGenerator.initialLoopState exampleMetadata) a None
      = Ok (navigationLines (PlaywrightGenerator.initialLoopState exampleMetadata) a
              ++ [command], st')
    /\ (a_type a = select /\ command = PlaywrightGenerator.generateSelectCommand a
        \/ a_type a = scroll
           /\ command = PlaywrightGenerator.generateScrollCommand (json := noJson) a
        \/ a_type a = wait /\ command = PlaywrightGenerator.generateWaitCommand a)
    /\ Forall (fun line =>
                 ActionReplayer.recognize line = None
                 /\ forall w : World,
                     ActionReplayer.executeLine (host := obligingHost "") w line
                     = (w, []))
         (navigationLines (PlaywrightGenerator.initialLoopState exampleMetadata) a
            ++ [command]).
Proof.
  apply (select_scroll_wait_not_executed (json := noJson) (host := obligingHost "")).
  - left. reflexivity.
  - vm_compute. reflexivity.
Defined.

(** ** The generator: the loop computes the consolidated body *)

Section BodyRefinement.
Context {json : JsonModel}.
Import PlaywrightGenerator.

Lemma processAction_lastUrl st a next l st' :
  processAction st a next = Ok (l, st') -> lastUrl st' = Some (a_url a).
Proof.
  unfold processAction.
  assert (E : (if negb (bool_decide (Some (a_url a) = lastUrl st))
               then Some (a_url a) else lastUrl st) = Some (a_url a)).
  { destruct (bool_decide (Some (a_url a) = lastUrl st)) eqn:D; [|reflexivity].
    apply bool_decide_eq_true in D. cbn. congruence. }
  rewrite E.
  destruct (a_type a);
    try (intros [= <- <-]; reflexivity);
    try (destruct (flushPending st a) as [[? ?] ?]; intros [= <- <-]; reflexivity).
  destruct (inputCase st a next) as [[[? ?] ?]|]; [|discriminate].
  cbn [bind]. intros [= <- <-]. reflexivity.
Qed.

(** one iteration of the loop pushes the navigation comment and the
    command of the action *)
Lemma processAction_commandLines st a next :
  pendingMatches st (Some a) ->
  exists st',
    processAction st a next
      = Ok (navigationComment (lastUrl st) a ++ commandLines a next, st')
    /\ pendingMatches st' next.
Proof.
  intros Hp. unfold commandLines.
  destruct (a_type a) eqn:Ht.
  all: try (unfold processAction; rewrite Ht;
            unfold pendingMatches in Hp;
            destruct (lastInputSelector st) as [prev|] eqn:Hl;
            [cbn in Hp; apply isInputOn_type in Hp; congruence|];
            try (unfold flushPending; rewrite Hl);
            eexists; split; [reflexivity|];
            unfold pendingMatches; cbn; try rewrite Hl; exact I).
  set (sel := getSelectorString (a_selector a)).
  assert (Ha : isInputOn sel a = true)
    by (unfold isInputOn; rewrite Ht; apply String.eqb_refl).
  destruct (inputOn sel next) eqn:Hn.
  - destruct next as [n|]; [|discriminate]. cbn in Hn.
    destruct (processAction_input_pending sel st a n Hp Ha Hn) as [st' [E Hl]].
    exists st'. rewrite app_nil_r. split; [exact E|].
    unfold pendingMatches. rewrite Hl. exact Hn.
  - destruct (processAction_input_flush sel st a next Hp Ha Hn) as [st' [E [Hl _]]].
    exists st'. split; [exact E|]. unfold pendingMatches. rewrite Hl. exact I.
Qed.

(** the loop computes the consolidated body, and never throws *)
Lemma processActions_consolidatedBody (l : list RecordedAction) :
  forall st following,
    pendingMatches st (headAction l following) ->
    exists st',
      processActions st l following
      = Ok (consolidatedBody (lastUrl st) l following, st').
Proof.
  induction l as [|a rest IH]; intros st following Hp; [exists st; reflexivity|].
  cbn [processActions consolidatedBody].
  change (match rest with n :: _ => Some n | [] => following end)
    with (headAction rest following).
  destruct (processAction_commandLines st a (headAction rest following) Hp)
    as [st1 [E1 Hp1]].
  rewrite E1. cbn [bind].
  destruct (IH st1 following Hp1) as [st2 E2]. rewrite E2. cbn [bind].
  rewrite (processAction_lastUrl _ _ _ _ _ E1), <- app_assoc.
  exists st2. reflexivity.
Qed.

(** the lines of the script: header, consolidated body, closing line *)
Lemma generateLines_consolidatedBody metadata header actions :
  headerLines metadata = Ok header ->
  generateLines metadata actions
  = Ok (header ++ consolidatedBody (m_targetSite metadata) actions None ++ ["});"]).
Proof.
  intros Hh. unfold generateLines. rewrite Hh. cbn [bind].
  destruct (processActions_consolidatedBody actions (initialLoopState metadata) None)
    as [st' E]; [exact I|].
  rewrite E. reflexivity.
Qed.
End BodyRefinement.

Section BodyTemplates.
Context {json : JsonModel}.
Import PlaywrightGenerator.
Variable p : string.



Lemma foreignTo_incl l1 l2 :
  (forall x, In x l1 -> In x l2) -> foreignTo l2 p = true -> foreignTo l1 p = true.
Proof.
  unfold foreignTo. intros Hin H.
  apply andb_true_iff in H as [H1 H2]. rewrite H1. cbn [andb].
  rewrite forallb_forall in *. intros x Hx. apply H2, Hin, Hx.
Qed.

Lemma textComment_free lits (selector : option ElementSelector) :
  foreignTo lits p = true -> In commentOpen lits -> In doubleQuote lits ->
  includes p (selectorText selector) = false ->
  includes p (textComment selector) = false.
Proof.
  intros Hp H1 H2 Ht. pose proof (foreignTo_escapable _ _ Hp) as He.
  unfold textComment, selectorText in *.
  destruct selector as [sel|]; [|apply includes_empty, He].
  destruct (truthy (sel_text sel)); [|apply includes_empty, He].
  apply free_literal; [apply (foreignTo_literal _ _ _ Hp), H1|].
  apply free_variable_end; [assumption..|apply (foreignTo_literal _ _ _ Hp), H2].
Qed.

Lemma navigationComment_free prev (a : RecordedAction) :
  foreignTo navigationLiterals p = true ->
  includes p (a_url a) = false ->
  Forall (fun line => includes p line = false) (navigationComment prev a).
Proof.
  intros Hp Hu. unfold navigationComment. destruct (negb _); constructor; [|constructor].
  apply free_literal; [apply (foreignTo_literal _ _ _ Hp); cbn; tauto|exact Hu].
Qed.

Lemma generateClickCommand_free (a : RecordedAction) :
  foreignTo clickLiterals p = true ->
  includes p (getPreferredSelector (a_selector a)) = false ->
  includes p (selectorText (a_selector a)) = false ->
  includes p (generateClickCommand a) = false.
Proof.
  intros Hp Hs Ht. pose proof (foreignTo_escapable _ _ Hp) as He.
  unfold generateClickCommand.
  apply free_literal; [apply (foreignTo_literal _ _ _ Hp); cbn; tauto|].
  apply free_variable;
    [apply includes_escapeSelector; assumption
    |apply (foreignTo_literal _ _ _ Hp); cbn; tauto|].
  apply (textComment_free _ _ Hp); [cbn; tauto|cbn; tauto|exact Ht].
Qed.

Lemma generateInputCommand_free (selectorStr value : string)
    (selectorObj : option ElementSelector) :
  foreignTo fillLiterals p = true ->
  includes p selectorStr = false ->
  includes p value = false ->
  includes p (selectorText selectorObj) = false ->
  includes p (generateInputCommand selectorStr value selectorObj) = false.
Proof.
  intros Hp Hs Hv Ht. pose proof (foreignTo_escapable _ _ Hp) as He.
  unfold generateInputCommand.
  apply free_literal; [apply (foreignTo_literal _ _ _ Hp); cbn; tauto|].
  apply free_variable;
    [apply includes_escapeSelector; assumption
    |apply (foreignTo_literal _ _ _ Hp); cbn; tauto|].
  apply free_variable;
    [apply includes_escapeValue; assumption
    |apply (foreignTo_literal _ _ _ Hp); cbn; tauto|].
  apply (textComment_free _ _ Hp); [cbn; tauto|cbn; tauto|exact Ht].
Qed.

Lemma generateKeypressCommand_free (a : RecordedAction) :
  foreignTo keypressLiterals p = true ->
  match keyOf (orElse (a_value a) "{}") with
  | KeyOther key => includes p key = false
  | _ => True
  end ->
  includes p (generateKeypressCommand a) = false.
Proof.
  intros Hp Hk. pose proof (foreignTo_escapable _ _ Hp) as He.
  unfold generateKeypressCommand.
  destruct (keyOf _) as [| |key].
  - pose proof (foreignTo_literal _ _ "  await page.keyboard.press('Enter');" Hp) as H0.
    apply literalFree_elim in H0 as [H0 _]; [exact H0|cbn; tauto].
  - pose proof (foreignTo_literal _ _
      "  await page.keyboard.press('Enter'); // May trigger form submission" Hp) as H0.
    apply literalFree_elim in H0 as [H0 _]; [exact H0|cbn; tauto].
  - apply free_literal; [apply (foreignTo_literal _ _ _ Hp); cbn; tauto|].
    apply free_variable_end;
      [assumption..|apply (foreignTo_literal _ _ _ Hp); cbn; tauto].
Qed.


Lemma absentFrom_forall texts :
  absentFrom p texts = true -> forall s, In s texts -> includes p s = false.
Proof.
  unfold absentFrom. rewrite forallb_forall. intros H s Hs.
  apply negb_true_iff, H, Hs.
Qed.

(** the command of an action that is not a manual step *)
Lemma commandLines_free (a : RecordedAction) (next : option RecordedAction) :
  foreignTo bodyLiterals p = true ->
  a_type a <> manual_step ->
  absentFrom p (embeddedTexts a) = true ->
  Forall (fun line => includes p line = false) (commandLines a next).
Proof.
  intros Hp Hm Hfree. pose proof (absentFrom_forall _ Hfree) as Hin.
  assert (Hclick : foreignTo clickLiterals p = true)
    by (apply (foreignTo_incl _ bodyLiterals); [cbn; tauto|exact Hp]).
  assert (Hfill : foreignTo fillLiterals p = true)
    by (apply (foreignTo_incl _ bodyLiterals); [cbn; tauto|exact Hp]).
  assert (Hkey : foreignTo keypressLiterals p = true)
    by (apply (foreignTo_incl _ bodyLiterals); [cbn; tauto|exact Hp]).
  assert (Hsel : foreignTo selectLiterals p = true)
    by (apply (foreignTo_incl _ bodyLiterals); [cbn; tauto|exact Hp]).
  assert (Hscroll : foreignTo scrollLiterals p = true)
    by (apply (foreignTo_incl _ bodyLiterals); [cbn; tauto|exact Hp]).
  assert (Hwait : foreignTo waitLiterals p = true)
    by (apply (foreignTo_incl _ bodyLiterals); [cbn; tauto|exact Hp]).
  unfold commandLines. unfold embeddedTexts in Hin.
  destruct (a_type a); try congruence.
  - constructor; [|constructor].
    apply generateClickCommand_free; [exact Hclick|apply Hin; cbn; tauto..].
  - destruct (inputOn _ next); constructor; [|constructor].
    apply generateInputCommand_free; [exact Hfill|apply Hin; cbn; tauto..].
  - constructor; [|constructor].
    apply generateSelectCommand_free; [exact Hsel|apply Hin; cbn; tauto..].
  - constructor.
  - constructor; [|constructor].
    apply generateScrollCommand_free; [exact Hscroll|].
    destruct (scrollOf _) as [[x y]|]; [|exact I].
    split; apply Hin; cbn; tauto.
  - constructor; [|constructor]. apply generateWaitCommand_free, Hwait.
  - constructor; [|constructor].
    apply generateKeypressCommand_free; [exact Hkey|].
    destruct (keyOf _); try exact I. apply Hin; cbn; tauto.
Qed.
End BodyTemplates.

Section Counting.

Lemma count_go_skip (q x r : string) :
  count_go q (String.length x) (x +:+ r) = count_go q O r.
Proof. induction x as [|c x IH]; [reflexivity|]. rewrite append_String. exact IH. Qed.

(** an occurrence at the start is counted, and the count goes on after it *)
Lemma count_go_occurrence (q r : string) :
  is_empty q = false -> count_go q O (q +:+ r) = S (count_go q O r).
Proof.
  intros Hq. destruct q as [|c q]; [discriminate|].
  rewrite append_String. cbn [count_go]. rewrite <- append_String.
  rewrite startsWith_append. cbn [String.length Nat.pred].
  rewrite count_go_skip. reflexivity.
Qed.

(** a position where the pattern does not start is passed over *)
Lemma count_go_miss (q : string) (c : ascii) (r : string) :
  startsWith q (String c r) = false ->
  count_go q O (String c r) = count_go q O r.
Proof. intros H. cbn [count_go]. rewrite H. reflexivity. Qed.

Variable p : string.

Lemma countMatches_absent s : includes p s = false -> countMatches p s = O.
Proof.
  unfold countMatches. induction s as [|c s IH]; [reflexivity|].
  rewrite includes_cons. intros H. apply orb_false_iff in H as [H1 H2].
  cbn [count_go]. rewrite H1. apply IH, H2.
Qed.

Lemma startsWith_length q s :
  startsWith q s = true -> (String.length q <= String.length s)%nat.
Proof.
  revert s. induction q as [|c q IH]; intros s H; [cbn; lia|].
  destruct s as [|d s]; [discriminate|]. cbn [startsWith] in H.
  apply andb_true_iff in H as [_ H]. apply IH in H. cbn. lia.
Qed.

(** a pattern without the character [ch] cannot reach beyond a [ch] *)
Lemma startsWith_before_char (ch : ascii) q a b :
  allChars (fun x => negb (Ascii.eqb x ch)) q = true ->
  startsWith q (a +:+ String ch b) = startsWith q a.
Proof.
  revert a. induction q as [|c q IH]; intros a Hq; [rewrite !startsWith_empty; reflexivity|].
  unfold allChars in Hq. cbn in Hq. apply andb_true_iff in Hq as [Hc Hq].
  destruct a as [|d a].
  - rewrite append_empty_l. cbn [startsWith].
    apply negb_true_iff in Hc. rewrite Hc. reflexivity.
  - rewrite append_String. cbn [startsWith]. rewrite (IH _ Hq). reflexivity.
Qed.

Hypothesis p_one_line : allChars (fun x => negb (Ascii.eqb x "010")) p = true.
Hypothesis p_not_empty : is_empty p = false.

Lemma count_go_line (a b : string) :
  forall k : nat,
    (k <= String.length a)%nat ->
    count_go p k (a +:+ newline +:+ b) = (count_go p k a + count_go p O b)%nat.
Proof.
  induction a as [|c a IH]; intros k Hk.
  - cbn in Hk. assert (k = O) by lia. subst k.
    rewrite append_empty_l. unfold newline. rewrite append_String, append_empty_l.
    cbn [count_go]. destruct p as [|x q] eqn:Ep.
    + discriminate p_not_empty.
    + unfold allChars in p_one_line. cbn in p_one_line.
      apply andb_true_iff in p_one_line as [Hx _]. apply negb_true_iff in Hx.
      cbn [startsWith]. rewrite Hx. reflexivity.
  - rewrite append_String. cbn [count_go]. destruct k as [|k].
    + change (startsWith p (String c (a +:+ newline +:+ b)))
        with (startsWith p (String c a +:+ String "010" b)).
      rewrite (startsWith_before_char _ _ _ _ p_one_line).
      destruct (startsWith p (String c a)) eqn:Es.
      * apply startsWith_length in Es. cbn [String.length] in Es.
        rewrite IH by lia. reflexivity.
      * rewrite IH by lia. reflexivity.
    + cbn [String.length] in Hk. apply IH. lia.
Qed.

(** occurrences in the script add up line by line *)
Lemma countMatches_join (lines : list string) :
  countMatches p (join newline lines) = countInLines p lines.
Proof.
  unfold countInLines, join.
  induction lines as [|x [|y rest] IH];
    [reflexivity|cbn [String.concat map list_sum fold_right]; lia|].
  change (String.concat newline (x :: y :: rest))
    with (x +:+ newline +:+ String.concat newline (y :: rest)).
  unfold countMatches in *. rewrite count_go_line by apply Nat.le_0_l.
  rewrite IH. reflexivity.
Qed.

Lemma countInLines_app l1 l2 :
  countInLines p (l1 ++ l2) = (countInLines p l1 + countInLines p l2)%nat.
Proof. unfold countInLines. rewrite map_app, list_sum_app. reflexivity. Qed.

Lemma countInLines_absent lines :
  Forall (fun line => includes p line = false) lines -> countInLines p lines = O.
Proof.
  unfold countInLines. induction 1 as [|x l Hx Hl IH]; [reflexivity|].
  change (countMatches p x + list_sum (map (countMatches p) l) = 0)%nat.
  rewrite (countMatches_absent _ Hx), IH. reflexivity.
Qed.
End Counting.

Section Loader.
Import ActionRecorder.

Lemma split_go_not_nil sep k s : split_go sep k s <> [].
Proof.
  revert k. induction s as [|c s IH]; intros k; [discriminate|].
  cbn [split_go]. destruct k as [|k]; [|apply IH].
  destruct (startsWith sep (String c s)); [discriminate|].
  destruct (split_go sep 0 s); discriminate.
Qed.

(** a text that contains the separator splits into two pieces at least *)
Lemma split_second sep s :
  is_empty sep = false -> includes sep s = true ->
  exists x y rest, split sep s = x :: y :: rest.
Proof.
  intros Hsep. unfold split. induction s as [|c s IH]; intros H.
  - destruct sep; discriminate.
  - rewrite includes_cons in H. cbn [split_go].
    destruct (startsWith sep (String c s)).
    + pose proof (split_go_not_nil sep (Nat.pred (String.length sep)) s) as Hn.
      destruct (split_go sep (Nat.pred (String.length sep)) s) as [|y rest];
        [contradiction|].
      exists "", y, rest. reflexivity.
    + cbn [orb] in H. destruct (IH H) as [x [y [rest E]]]. rewrite E.
      exists (String c x), y, rest. reflexivity.
Qed.

Lemma afterMarker_total marker line :
  is_empty marker = false -> includes marker line = true ->
  exists v, afterMarker marker line = Ok v.
Proof.
  intros Hm H. destruct (split_second _ _ Hm H) as [x [y [rest E]]].
  unfold afterMarker. rewrite E. eexists. reflexivity.
Qed.

Lemma parseLine_total st line : exists st', parseLine st line = Ok st'.
Proof.
  unfold parseLine.
  destruct (includes "// Recording ID:" line) eqn:E1.
  { destruct (afterMarker_total "// Recording ID:" line eq_refl E1) as [v ->]. eexists. reflexivity. }
  destruct (includes "// Created:" line) eqn:E2.
  { destruct (afterMarker_total "// Created:" line eq_refl E2) as [v ->]. eexists. reflexivity. }
  destruct (includes "// Description:" line) eqn:E3.
  { destruct (afterMarker_total "// Description:" line eq_refl E3) as [v ->]. eexists. reflexivity. }
  destruct (includes "test('" line); [destruct (match_test line); eexists; reflexivity|].
  destruct (includes "await page.goto('" line);
    [destruct (match_goto line); eexists; reflexivity|].
  eexists. reflexivity.
Qed.

Lemma parseLines_total lines : forall st, exists st', parseLines st lines = Ok st'.
Proof.
  induction lines as [|line rest IH]; intros st; [eexists; reflexivity|].
  cbn [parseLines]. destruct (parseLine_total st line) as [st1 ->]. cbn [bind].
  apply IH.
Qed.

(** the loader never throws, and counts the manual-step markers of the
    text *)
Lemma parsePlaywrightScript_manualSteps (filename content : string) :
  exists recording,
    parsePlaywrightScript filename content = Ok recording
    /\ (r_metadata recording ≫= manualSteps)
       = Some (countMatches manualStepMarker content).
Proof.
  unfold parsePlaywrightScript.
  destruct (parseLines_total (split newline content)
              {| p_id := replaceFirst ".spec.ts" "" filename;
                 p_name := replaceFirst ".spec.ts" "" filename;
                 p_description := None; p_createdAt := Num 0;
                 p_targetSite := None |}) as [st ->].
  cbn [bind]. eexists. split; reflexivity.
Qed.
End Loader.

Section HeaderLines.
Context {json : JsonModel}.
Import PlaywrightGenerator.

Lemma headerLines_shape metadata iso :
  JsDate.toISOString (m_createdAt metadata) = Ok iso ->
  headerLines metadata
  = Ok (["import { test, expect } from '@playwright/test';"; "";
         "// Recording ID: " +:+ m_id metadata;
         "// Created: " +:+ iso]
        ++ descriptionLines metadata ++ frameLines metadata).
Proof. intros H. unfold headerLines. rewrite H. reflexivity. Qed.

Variable p : string.

Lemma frameLines_free metadata :
  foreignTo frameLiterals p = true ->
  absentFrom p (frameTexts metadata) = true ->
  Forall (fun line => includes p line = false) (frameLines metadata).
Proof.
  intros Hp Hfree. pose proof (foreignTo_escapable _ _ Hp) as He.
  pose proof (absentFrom_forall _ _ Hfree) as Hin. unfold frameTexts in Hin.
  unfold frameLines. apply Forall_app. split.
  - constructor; [apply includes_empty, He|]. constructor; [|constructor].
    apply free_literal; [apply (foreignTo_literal _ _ _ Hp); cbn; tauto|].
    apply free_variable_end;
      [assumption|apply Hin; cbn; tauto|apply (foreignTo_literal _ _ _ Hp); cbn; tauto].
  - destruct (truthy (m_targetSite metadata)); [|constructor].
    constructor.
    { pose proof (foreignTo_literal _ _ "  // Navigate to starting URL" Hp) as H0.
      apply literalFree_elim in H0 as [H0 _]; [exact H0|cbn; tauto]. }
    constructor; [|constructor; [apply includes_empty, He|constructor]].
    apply free_literal; [apply (foreignTo_literal _ _ _ Hp); cbn; tauto|].
    apply free_variable_end;
      [assumption|apply Hin; cbn; tauto|apply (foreignTo_literal _ _ _ Hp); cbn; tauto].
Qed.


Lemma importLine_free :
  foreignTo frameLiterals p = true ->
  includes p "import { test, expect } from '@playwright/test';" = false.
Proof.
  intros Hp.
  pose proof (foreignTo_literal _ _
    "import { test, expect } from '@playwright/test';" Hp) as H0.
  apply literalFree_elim in H0 as [H0 _]; [exact H0|cbn; tauto].
Qed.

Lemma descriptionLines_free metadata :
  literalFree p "// Description: " = true ->
  includes p (orElse (m_description metadata) "") = false ->
  Forall (fun line => includes p line = false) (descriptionLines metadata).
Proof.
  intros Hl Hd. unfold descriptionLines.
  destruct (truthy _); constructor; [|constructor].
  apply free_literal; assumption.
Qed.

Lemma createdLine_free iso :
  literalFree p "// Created: " = true ->
  allChars isoChar p = false -> allChars isoChar iso = true ->
  includes p ("// Created: " +:+ iso) = false.
Proof.
  intros Hl Hp Hiso. apply free_literal; [exact Hl|].
  apply (includes_allChars isoChar); assumption.
Qed.

Lemma manualStepMarker_foreign :
  foreignTo bodyLiterals manualStepMarker = true
  /\ foreignTo navigationLiterals manualStepMarker = true
  /\ foreignTo frameLiterals manualStepMarker = true.
Proof. repeat split; vm_compute; reflexivity. Qed.

Lemma manualStepLine_shape (d : string) :
  "  // MANUAL STEP: " +:+ d
  = String " " (String " " (manualStepMarker +:+ String " " d)).
Proof. reflexivity. Qed.

(** the comment of a manual step holds the marker once when its description
    does not hold it *)
Lemma countMatches_manualStepLine (d : string) :
  includes manualStepMarker d = false ->
  countMatches manualStepMarker ("  // MANUAL STEP: " +:+ d) = 1%nat.
Proof.
  intros Hd. rewrite manualStepLine_shape. unfold countMatches.
  rewrite (count_go_miss _ " ") by reflexivity.
  rewrite (count_go_miss _ " ") by reflexivity.
  rewrite count_go_occurrence by reflexivity.
  rewrite (count_go_miss _ " ") by reflexivity.
  apply f_equal, (countMatches_absent _ _ Hd).
Qed.

(** the body contains as many occurrences of the manual-step marker as
    the action list has manual steps, when no text of an action
    contains the marker *)
Lemma consolidatedBody_manualSteps (actions : list RecordedAction) :
  forall prev following,
    absentFrom manualStepMarker (bodyTexts actions) = true ->
    countInLines manualStepMarker (consolidatedBody prev actions following)
    = countManualSteps actions.
Proof.
  induction actions as [|a rest IH]; intros prev following Hfree; [reflexivity|].
  unfold bodyTexts, absentFrom in Hfree. cbn [map concat] in Hfree.
  rewrite forallb_app in Hfree. apply andb_true_iff in Hfree as [Ha Hrest].
  cbn [forallb] in Ha. apply andb_true_iff in Ha as [Hurl Ha].
  apply negb_true_iff in Hurl.
  cbn [consolidatedBody]. rewrite !countInLines_app.
  rewrite (IH _ _ Hrest).
  rewrite (countInLines_absent _ _
             (navigationComment_free manualStepMarker prev a
                (proj1 (proj2 manualStepMarker_foreign)) Hurl)).
  unfold countManualSteps. rewrite filter_cons.
  destruct (is_manual_step a) eqn:Em.
  - rewrite decide_True by reflexivity. cbn [length].
    unfold is_manual_step in Em. unfold commandLines. unfold embeddedTexts in Ha.
    destruct (a_type a); try discriminate.
    cbn [forallb] in Ha. apply andb_true_iff in Ha as [Hd _].
    apply negb_true_iff in Hd.
    unfold countInLines. cbn [map list_sum fold_right].
    unfold generateManualStepComment.
    rewrite (countMatches_manualStepLine _ Hd). lia.
  - rewrite decide_False by discriminate.
    rewrite (countInLines_absent _ _
               (commandLines_free manualStepMarker a _
                  (proj1 manualStepMarker_foreign)
                  ltac:(unfold is_manual_step in Em; destruct (a_type a); congruence)
                  Ha)).
    reflexivity.
Qed.
End HeaderLines.

Section ManualStepCount.
Context {json : JsonModel}.
Import PlaywrightGenerator ActionRecorder.

(** C8, as the code has it.  When the time stamp is a valid time value
    and none of the texts written into the script (id, name,
    description, target site, URLs and the texts of the commands,
    descriptions of manual steps included) contains the manual-step
    marker, the generator produces a script, the loader reads it, and
    the manual-step count it recovers is the number of manual-step
    actions of the list. *)
Theorem manual_step_count_recovered :
  forall (metadata : PlaywrightScriptMetadata) (actions : list RecordedAction)
         (filename : string),
    Z.abs (m_createdAt metadata) <= JsDate.maxTime ->
    absentFrom manualStepMarker
      (m_id metadata :: frameTexts metadata ++ bodyTexts actions) = true ->
    exists (script : string) (recording : Recording),
      generate metadata actions = Ok script
      /\ parsePlaywrightScript filename script = Ok recording
      /\ (r_metadata recording ≫= manualSteps) = Some (countManualSteps actions).
Proof.
  intros metadata actions filename Ht Hfree.
  destruct (parse_toISOString _ Ht) as [iso [Hiso _]].
  pose proof (toISOString_chars _ _ Hiso) as Hchars.
  unfold absentFrom in Hfree. cbn [forallb] in Hfree.
  apply andb_true_iff in Hfree as [Hid Hfree]. apply negb_true_iff in Hid.
  rewrite forallb_app in Hfree. apply andb_true_iff in Hfree as [Hframe Hbody].
  pose proof (absentFrom_forall _ _ Hframe) as Hin. unfold frameTexts in Hin.
  pose proof (generateLines_consolidatedBody metadata _ actions
                (headerLines_shape metadata iso Hiso)) as Hlines.
  unfold generate. rewrite Hlines. cbn [bind].
  eexists.
  destruct (parsePlaywrightScript_manualSteps filename
              (join newline
                 ((["import { test, expect } from '@playwright/test';"; "";
                    "// Recording ID: " +:+ m_id metadata;
                    "// Created: " +:+ iso]
                   ++ descriptionLines metadata ++ frameLines metadata)
                  ++ consolidatedBody (m_targetSite metadata) actions None
                  ++ ["});"]))) as [recording [Hparse Hcount]].
  exists recording. split; [reflexivity|]. split; [exact Hparse|].
  rewrite Hcount. f_equal.
  rewrite (countMatches_join manualStepMarker eq_refl eq_refl).
  rewrite !countInLines_app.
  rewrite (consolidatedBody_manualSteps actions _ _ Hbody).
  rewrite (countInLines_absent manualStepMarker
             ["import { test, expect } from '@playwright/test';"; "";
              "// Recording ID: " +:+ m_id metadata; "// Created: " +:+ iso]).
  2:{ repeat constructor.
      - apply free_literal; [reflexivity|exact Hid].
      - apply createdLine_free; [reflexivity|reflexivity|exact Hchars]. }
  rewrite (countInLines_absent _ _
             (descriptionLines_free manualStepMarker metadata eq_refl
                ltac:(apply Hin; cbn; tauto))).
  rewrite (countInLines_absent _ _
             (frameLines_free manualStepMarker metadata
                (proj2 (proj2 manualStepMarker_foreign)) Hframe)).
  rewrite (countInLines_absent manualStepMarker ["});"])
    by (repeat constructor).
  lia.
Qed.
End ManualStepCount.

(** C8 fails as stated: the script generated for the single manual step
    [quotingManualStep] contains the marker twice, and the loader
    recovers the count 2 for a list with one manual step. *)
Lemma quoted_marker_counted_twice :
  exists (script : string) (recording : Recording),
    PlaywrightGenerator.generate (json := noJson) exampleMetadata [quotingManualStep]
      = Ok script
    /\ ActionRecorder.parsePlaywrightScript "4d6870eb.spec.ts" script = Ok recording
    /\ (r_metadata recording ≫= manualSteps) = Some 2%nat
    /\ countManualSteps [quotingManualStep] = 1%nat.
Proof.
  do 2 eexists. split; [vm_compute; reflexivity|].
  split; [vm_compute; reflexivity|]. split; reflexivity.
Qed.

(** C8 on an example: a click, a manual step, an input. *)
Lemma manual_step_count_example :
  exists (script : string) (recording : Recording),
    PlaywrightGenerator.generate (json := noJson) exampleMetadata
      [exampleAction click (selectorById "go") None None;
       exampleAction manual_step None None (Some "scan badge");
       exampleAction input (selectorById "q") (Some "ab") None]
      = Ok script
    /\ ActionRecorder.parsePlaywrightScript "4d6870eb.spec.ts" script = Ok recording
    /\ (r_metadata recording ≫= manualSteps)
       = Some (countManualSteps
                 [exampleAction click (selectorById "go") None None;
                  exampleAction manual_step None None (Some "scan badge");
                  exampleAction input (selectorById "q") (Some "ab") None]).
Proof.
  apply (manual_step_count_recovered (json := noJson)).
  - vm_compute. discriminate.
  - vm_compute. reflexivity.
Defined.

(** ** The generator and the loader: the header is read back *)

Section Splitting.














End Splitting.

Section HeaderRoundTrip.
Context {json : JsonModel}.
Import PlaywrightGenerator ActionRecorder.














End HeaderRoundTrip.


